(** * Training extensions of blocks ([blocks/extensions.py])

    A shallow embedding of the callback mechanism of the training loop:
    the base class [TrainingExtension], whose [dispatch] resolves a callback
    by name, and [SimpleExtension], whose [dispatch] walks a list of
    registered conditions and calls the abstract method [do] for each one
    that is satisfied, together with the two extensions built on it,
    [FinishAfter] and [Printing].

    Python objects that the code passes around are values of [value];
    keyword dictionaries and the current row of the log are finite maps;
    a method that may raise, mutate the extension or call a collaborator is
    a computation of the monad [M], which threads the object, records the
    calls made to collaborators and stops at the first exception. *)

From stdpp Require Import base strings gmap list pretty.
From Stdlib Require Import ZArith Lia.

Local Open Scope string_scope.
Local Open Scope Z_scope.
Local Open Scope list_scope.

(** ** Python values *)

(** The objects that reach this module from its callers: flags, counters,
    names and opaque objects such as a batch. *)
Inductive value :=
| VNone
| VBool (b : bool)
| VInt (n : Z)
| VStr (s : string)
| VObj (id : positive).

(** [bool] is a subclass of [int]: [True] and [False] take part in numeric
    comparison as 1 and 0. *)
Definition as_int (v : value) : option Z :=
  match v with
  | VBool b => Some (Z.b2z b)
  | VInt n => Some n
  | _ => None
  end.

(** The truth value of an object, as tested by [if v:] and [not v]. *)
Definition truthy (v : value) : bool :=
  match v with
  | VNone => false
  | VBool b => b
  | VInt n => negb (n =? 0)
  | VStr s => negb (String.eqb s "")
  | VObj _ => true
  end.

(** The operator [==]. *)
Definition py_eq (a b : value) : bool :=
  match as_int a, as_int b with
  | Some x, Some y => x =? y
  | _, _ =>
      match a, b with
      | VNone, VNone => true
      | VStr s, VStr t => String.eqb s t
      | VObj i, VObj j => Pos.eqb i j
      | _, _ => false
      end
  end.

(** ** The main loop and its log *)

(** Modelled from the spec: the training status kept by the log, which is
    not defined in this file; the spec gives it the two counters
    [epochs_done] and [iterations_done]. *)
Record Status := mkStatus { epochs_done : Z; iterations_done : Z }.

(** Modelled from the spec: the log of the main loop, not defined in this
    file; the spec gives it a [status] and a mutable current row, whose
    attributes are kept here as a dictionary from attribute name to value. *)
Record Log := mkLog { status : Status; current_row : gmap string value }.

(** Modelled from the spec: the host main loop, not defined in this file;
    the extensions reach the log through it. *)
Record MainLoop := mkMainLoop { log : Log }.

(** ** Exceptions and computations *)

Inductive exception :=
| AttributeError (name : string)
| TypeError (what : string).

Inductive outcome (A : Type) :=
| Returned (a : A)
| Raised (e : exception).
Arguments Returned {A} a.
Arguments Raised {A} e.

(** A computation on an object of type [S] that records events of type [E]:
    it ends with a value or an exception, the object as it is then, and the
    events in the order they happened. *)
Definition M (S E A : Type) : Type := S -> outcome A * S * list E.

Section Computations.
Context {S E : Type}.

Definition ret {A} (a : A) : M S E A := fun self => (Returned a, self, []).

Definition raise {A} (e : exception) : M S E A :=
  fun self => (Raised e, self, []).

Definition bind {A B} (m : M S E A) (k : A -> M S E B) : M S E B :=
  fun self =>
    match m self with
    | (Returned a, self', tr) =>
        match k a self' with
        | (r, self'', tr') => (r, self'', tr ++ tr')
        end
    | (Raised e, self', tr) => (Raised e, self', tr)
    end.

Definition emit (e : E) : M S E unit := fun self => (Returned tt, self, [e]).

Definition result {A} (r : outcome A * S * list E) : outcome A := r.1.1.
Definition final {A} (r : outcome A * S * list E) : S := r.1.2.
Definition trace {A} (r : outcome A * S * list E) : list E := r.2.
End Computations.

#[global] Instance M_ret {S E} : MRet (M S E) := @ret S E.
#[global] Instance M_bind {S E} : MBind (M S E) :=
  fun A B k m => bind m k.

(** ** [class TrainingExtension] *)

Module TrainingExtension.

Section Dispatch.
Context {S E : Type}.

(** What [getattr] finds under a name: a bound method, which can be
    called with positional arguments, or an attribute that holds data
    (such as [main_loop]) and cannot. *)
Inductive attribute :=
| Method (body : list value -> M S E unit)
| Data.

(** Attribute resolution on the extension: its own attributes, then
    those of its class and of the classes it inherits from.  Subclasses
    add methods, so the table is left open. *)
Variable attributes : S -> string -> option attribute.

Definition getattr (name : string) : M S E attribute :=
  fun self =>
    match attributes self name with
    | Some a => (Returned a, self, [])
    | None => (Raised (AttributeError name), self, [])
    end.

Definition call (f : attribute) (args : list value) : M S E unit :=
  match f with
  | Method body => body args
  | Data => raise (TypeError "object is not callable")
  end.

(** [getattr(self, callback_name)] called with the positional arguments. *)
Definition dispatch (callback_name : string) (args : list value)
  : M S E unit :=
  f ← getattr callback_name; call f args.
End Dispatch.

Arguments attribute : clear implicits.

Section Callbacks.
Context {S E : Type}.

(** [def name(self): pass] *)
Definition without_argument (name : string) (args : list value)
  : M S E unit :=
  match args with
  | [] => ret tt
  | _ => raise (TypeError (name ++ "() takes 1 positional argument"))
  end.

(** [def name(self, batch): pass] *)
Definition with_batch (name : string) (args : list value) : M S E unit :=
  match args with
  | [batch] => ret tt
  | _ => raise (TypeError (name ++ "() takes 2 positional arguments"))
  end.

Definition before_training := without_argument "before_training".
Definition before_epoch := without_argument "before_epoch".
Definition before_batch := with_batch "before_batch".
Definition after_batch := with_batch "after_batch".
Definition after_epoch := without_argument "after_epoch".
Definition after_training := without_argument "after_training".
Definition on_interrupt := without_argument "on_interrupt".

(** The seven callbacks of the class body, by name. *)
Definition callbacks (name : string) : option (list value -> M S E unit) :=
  if String.eqb name "before_training" then Some before_training
  else if String.eqb name "before_epoch" then Some before_epoch
  else if String.eqb name "before_batch" then Some before_batch
  else if String.eqb name "after_batch" then Some after_batch
  else if String.eqb name "after_epoch" then Some after_epoch
  else if String.eqb name "after_training" then Some after_training
  else if String.eqb name "on_interrupt" then Some on_interrupt
  else None.

(** An attribute table resolves the callbacks of the base class when
    nothing shadows them. *)
Definition inherits (attributes : S -> string -> option (attribute S E))
  : Prop :=
  forall self name body,
    callbacks name = Some body ->
    attributes self name = Some (Method body).

(** The bound method [self.dispatch] of the base class, called with
    positional arguments: the first one is the callback name.  The name
    [dispatch] is itself an attribute of the extension, so a dispatch
    can be dispatched. *)
Fixpoint bound_dispatch (args : list value) : M S E unit :=
  match args with
  | [] => raise (TypeError "dispatch() missing argument callback_name")
  | VStr name :: rest =>
      match callbacks name with
      | Some body => body rest
      | None =>
          if String.eqb name "dispatch" then bound_dispatch rest
          else raise (AttributeError name)
      end
  | _ :: _ => raise (TypeError "attribute name must be string")
  end.

(** The attributes that the body of the base class defines: the seven
    callbacks and [dispatch].  What every object owns besides them (the
    attributes of [object], and [main_loop] once the host has set it) is
    not listed. *)
Definition base_attributes (self : S) (name : string)
  : option (attribute S E) :=
  match callbacks name with
  | Some body => Some (Method body)
  | None =>
      if String.eqb name "dispatch" then Some (Method bound_dispatch)
      else None
  end.
End Callbacks.

(** The number of positional arguments that a callback of the base class
    takes besides [self]: the two batch callbacks take the batch. *)
Definition takes (name : string) : nat :=
  if String.eqb name "before_batch" || String.eqb name "after_batch"
  then 1%nat else 0%nat.

End TrainingExtension.

(** ** [class SimpleExtension] *)

Module SimpleExtension.

(** A registered condition: the triple
    [(callback_name, predicate, arguments)]. *)
Record Condition := mkCondition {
  callback_name : string;
  predicate : Log -> bool;
  arguments : list value
}.

(** The extension object.  [__init__] creates [_conditions]; [main_loop]
    is absent until the host sets it. *)
Record t := mk {
  main_loop : option MainLoop;
  _conditions : list Condition
}.

(** The calls that [dispatch] makes to code it does not define. *)
Inductive event :=
| PredicateCalled (c : Condition) (arg : Log)
| DoCalled (which_callback : string) (args : list value).

(** [add_condition]: a missing or empty [arguments] becomes the empty
    list, a missing [predicate] the predicate that is always true, and
    the triple is appended. *)
Definition add_condition (callback_name : string)
    (predicate : option (Log -> bool)) (arguments : option (list value))
    (self : t) : t :=
  let arguments :=
    match arguments with
    | Some (a :: l) => a :: l
    | _ => []
    end in
  let predicate :=
    match predicate with
    | Some p => p
    | None => fun log => true
    end in
  {| main_loop := main_loop self;
     _conditions :=
       _conditions self ++ [mkCondition callback_name predicate arguments] |}.

(** The parameters of [__init__] with the values bound to them. *)
Record Parameters := mkParameters {
  before_first_epoch : value;
  after_every_epoch : value;
  after_every_batch : value;
  after_training : value;
  after_n_epochs : value;
  after_n_batches : value
}.

Definition defaults : Parameters :=
  {| before_first_epoch := VBool false;
     after_every_epoch := VBool false;
     after_every_batch := VBool false;
     after_training := VBool false;
     after_n_epochs := VNone;
     after_n_batches := VNone |}.

(** [if flag: self.add_condition(...)] *)
Definition when (flag : value) (register : t -> t) (self : t) : t :=
  if truthy flag then register self else self.

Definition __init__ (p : Parameters) : t :=
  let self := {| main_loop := None; _conditions := [] |} in
  let self :=
    when (before_first_epoch p)
      (add_condition "before_epoch"
         (Some (fun log => py_eq (VInt (epochs_done (status log))) (VInt 0)))
         None) self in
  let self :=
    when (after_every_epoch p) (add_condition "after_epoch" None None) self in
  let self :=
    when (after_every_batch p) (add_condition "after_batch" None None) self in
  let self :=
    when (after_training p)
      (add_condition "after_training" None None) self in
  let self :=
    when (after_n_epochs p)
      (add_condition "after_epoch"
         (Some (fun log =>
                  py_eq (VInt (epochs_done (status log))) (after_n_epochs p)))
         None) self in
  let self :=
    when (after_n_batches p)
      (add_condition "after_batch"
         (Some (fun log =>
                  py_eq (VInt (iterations_done (status log)))
                    (after_n_batches p)))
         None) self in
  self.

(** The parameters of a construction that passes one keyword and leaves
    the others to their defaults. *)
Definition only_before_first_epoch (v : value) : Parameters :=
  {| before_first_epoch := v;
     after_every_epoch := after_every_epoch defaults;
     after_every_batch := after_every_batch defaults;
     after_training := after_training defaults;
     after_n_epochs := after_n_epochs defaults;
     after_n_batches := after_n_batches defaults |}.

Definition only_after_n_epochs (v : value) : Parameters :=
  {| before_first_epoch := before_first_epoch defaults;
     after_every_epoch := after_every_epoch defaults;
     after_every_batch := after_every_batch defaults;
     after_training := after_training defaults;
     after_n_epochs := v;
     after_n_batches := after_n_batches defaults |}.

Definition only_after_n_batches (v : value) : Parameters :=
  {| before_first_epoch := before_first_epoch defaults;
     after_every_epoch := after_every_epoch defaults;
     after_every_batch := after_every_batch defaults;
     after_training := after_training defaults;
     after_n_epochs := after_n_epochs defaults;
     after_n_batches := v |}.

(** The names [__init__] accepts as keywords. *)
Definition keywords : list string :=
  ["before_first_epoch"; "after_every_epoch"; "after_every_batch";
   "after_training"; "after_n_epochs"; "after_n_batches"].

(** Binding of a keyword dictionary to the parameters: a keyword that is
    no parameter is a [TypeError], a parameter that is not passed takes
    its default. *)
Definition bind_keywords (kwargs : gmap string value) : outcome Parameters :=
  if forallb (fun name => existsb (String.eqb name) keywords)
       (elements (dom kwargs))
  then
    Returned
      {| before_first_epoch :=
           default (before_first_epoch defaults)
             (kwargs !! "before_first_epoch");
         after_every_epoch :=
           default (after_every_epoch defaults)
             (kwargs !! "after_every_epoch");
         after_every_batch :=
           default (after_every_batch defaults)
             (kwargs !! "after_every_batch");
         after_training :=
           default (after_training defaults) (kwargs !! "after_training");
         after_n_epochs :=
           default (after_n_epochs defaults) (kwargs !! "after_n_epochs");
         after_n_batches :=
           default (after_n_batches defaults) (kwargs !! "after_n_batches") |}
  else Raised (TypeError "__init__() got an unexpected keyword argument").

(** [SimpleExtension.__init__] called with a keyword dictionary. *)
Definition init_with (kwargs : gmap string value) : outcome t :=
  match bind_keywords kwargs with
  | Returned p => Returned (__init__ p)
  | Raised e => Raised e
  end.

(** Modelled from the spec: the host assigns the back-reference
    [main_loop] to the extension before use; the assignment itself is in
    the main loop, not in this file. *)
Definition attach (ml : MainLoop) (self : t) : t :=
  {| main_loop := Some ml; _conditions := _conditions self |}.

Section Dispatch.
(** The abstract method [do].  Its own effect is on what it reaches
    through [self.main_loop]; the condition list of the extension is
    outside it. *)
Variable do : string -> list value -> MainLoop -> MainLoop.

(** [self.main_loop.log] *)
Definition get_log : M t event Log :=
  fun self =>
    match main_loop self with
    | Some ml => (Returned (log ml), self, [])
    | None => (Raised (AttributeError "main_loop"), self, [])
    end.

Definition call_predicate (c : Condition) (arg : Log) : M t event bool :=
  _ ← emit (PredicateCalled c arg); mret (predicate c arg).

(** A method that works on the main loop finds it through
    [self.main_loop], as [get_log] does. *)
Definition on_main_loop (f : MainLoop -> MainLoop) : M t event unit :=
  fun self =>
    match main_loop self with
    | Some ml =>
        (Returned tt,
         {| main_loop := Some (f ml); _conditions := _conditions self |},
         [])
    | None => (Raised (AttributeError "main_loop"), self, [])
    end.

Definition call_do (which_callback : string) (args : list value)
  : M t event unit :=
  _ ← emit (DoCalled which_callback args);
  on_main_loop (do which_callback args).

(** The body of the [for] loop of [dispatch], for one condition.  The
    operator [and] evaluates its right operand only when the left one
    is true. *)
Definition check (callback_invoked : string) (from_main_loop : list value)
    (c : Condition) : M t event unit :=
  if String.eqb (callback_name c) callback_invoked then
    l ← get_log;
    b ← call_predicate c l;
    if b : bool
    then call_do callback_invoked (from_main_loop ++ arguments c)
    else mret tt
  else mret tt.

Fixpoint for_each (conditions : list Condition)
    (callback_invoked : string) (from_main_loop : list value)
  : M t event unit :=
  match conditions with
  | [] => mret tt
  | c :: rest =>
      _ ← check callback_invoked from_main_loop c;
      for_each rest callback_invoked from_main_loop
  end.

Definition dispatch (callback_invoked : string)
    (from_main_loop : list value) : M t event unit :=
  fun self =>
    for_each (_conditions self) callback_invoked from_main_loop self.

(** *** What a dispatch is expected to do *)

(** A condition is satisfied for a callback when it was registered
    under that callback's name and its predicate holds of the log. *)
Definition satisfied (callback_invoked : string) (c : Condition)
    (l : Log) : bool :=
  String.eqb (callback_name c) callback_invoked && predicate c l.

(** The main loop after the loop of [dispatch] has dealt with one
    condition: [do] has worked on it if the condition was satisfied. *)
Definition advance (callback_invoked : string)
    (from_main_loop : list value) (ml : MainLoop) (c : Condition)
  : MainLoop :=
  if satisfied callback_invoked c (log ml)
  then do callback_invoked (from_main_loop ++ arguments c) ml
  else ml.

(** The conditions in registration order, each with the main loop as
    it is when the loop of [dispatch] comes to it: [do] may have
    changed the log for the conditions that follow a satisfied one. *)
Fixpoint reached (callback_invoked : string) (from_main_loop : list value)
    (ml : MainLoop) (conditions : list Condition)
  : list (Condition * MainLoop) :=
  match conditions with
  | [] => []
  | c :: rest =>
      (c, ml) ::
      reached callback_invoked from_main_loop
        (advance callback_invoked from_main_loop ml c) rest
  end.

(** The calls expected at one condition. *)
Definition expected (callback_invoked : string)
    (from_main_loop : list value) (cm : Condition * MainLoop)
  : list event :=
  if String.eqb (callback_name cm.1) callback_invoked then
    PredicateCalled cm.1 (log cm.2) ::
    (if predicate cm.1 (log cm.2)
     then [DoCalled callback_invoked (from_main_loop ++ arguments cm.1)]
     else [])
  else [].

(** *** The extension inside a training run *)

(** One callback of the host: the main loop, holding the log
    [at_log], calls [dispatch] on the extension. *)
Record Step := mkStep {
  at_log : Log;
  callback : string;
  from_host : list value
}.

Fixpoint run (steps : list Step) : M t event unit :=
  match steps with
  | [] => mret tt
  | s :: rest =>
      _ ← (fun self => dispatch (callback s) (from_host s)
                         (attach (mkMainLoop (at_log s)) self));
      run rest
  end.

(** The calls expected at one step of a run, for an extension with
    the given conditions. *)
Definition expected_in_run (conditions : list Condition) (s : Step)
  : list event :=
  flat_map (expected (callback s) (from_host s))
    (reached (callback s) (from_host s) (mkMainLoop (at_log s))
       conditions).
End Dispatch.

(** The calls of [do] in a trace, with the arguments of each, and the
    calls of predicates, with the condition and the argument of each. *)
Definition do_calls (tr : list event) : list (string * list value) :=
  omap (fun e =>
          match e with
          | DoCalled which_callback args => Some (which_callback, args)
          | PredicateCalled _ _ => None
          end) tr.

Definition predicate_calls (tr : list event) : list (Condition * Log) :=
  omap (fun e =>
          match e with
          | PredicateCalled c arg => Some (c, arg)
          | DoCalled _ _ => None
          end) tr.

(** The calls of [do] made on behalf of one callback. *)
Definition calls_under (name : string) (tr : list event)
  : list (string * list value) :=
  List.filter (fun call => String.eqb call.1 name) (do_calls tr).

(** A step of a run that is the callback [before_epoch] with no epoch
    done yet. *)
Definition before_first (s : Step) : bool :=
  String.eqb (callback s) "before_epoch" &&
  (epochs_done (status (at_log s)) =? 0).

(** The callbacks under which [__init__] registers conditions. *)
Definition triggers : list string :=
  ["before_epoch"; "after_epoch"; "after_batch"; "after_training"].

(** How many of the six parameters hold a true value. *)
Definition flags_set (p : Parameters) : nat :=
  length
    (List.filter truthy
       [before_first_epoch p; after_every_epoch p; after_every_batch p;
        after_training p; after_n_epochs p; after_n_batches p]).

(** What [counter == n] answers for a count [n] passed as a keyword: a
    number or a boolean is compared as a number, anything else is equal
    to no counter. *)
Definition counts (n : value) (counter : Z) : bool :=
  match as_int n with
  | Some k => counter =? k
  | None => false
  end.

End SimpleExtension.

(** ** [class FinishAfter] *)

Module FinishAfter.

(** [super().__init__] with the keywords it was given. *)
Definition __init__ (kwargs : gmap string value)
  : outcome SimpleExtension.t :=
  SimpleExtension.init_with kwargs.

(** [self.main_loop.log.current_row.training_finish_requested = True] *)
Definition do (which_callback : string) (args : list value)
    (ml : MainLoop) : MainLoop :=
  {| log :=
       {| status := status (log ml);
          current_row :=
            <["training_finish_requested" := VBool true]>
              (current_row (log ml)) |} |}.

Definition dispatch := SimpleExtension.dispatch do.

End FinishAfter.

(** ** [class Printing] *)

Module Printing.

(** [if name not in kwargs: kwargs[name] = True] *)
Definition set_if_absent (name : string) (kwargs : gmap string value)
  : gmap string value :=
  match kwargs !! name with
  | Some _ => kwargs
  | None => <[name := VBool true]> kwargs
  end.

Definition __init__ (kwargs : gmap string value)
  : outcome SimpleExtension.t :=
  let kwargs := set_if_absent "before_first_epoch" kwargs in
  let kwargs := set_if_absent "after_training" kwargs in
  let kwargs := set_if_absent "after_every_epoch" kwargs in
  SimpleExtension.init_with kwargs.

(** One call of [print], with its positional arguments. *)
Inductive printed := Print (args : list value).

Definition print (args : list value) : M SimpleExtension.t printed unit :=
  emit (Print args).

(** The tabulation character. *)
Definition tab : string := String (Ascii.ascii_of_nat 9) "".

(** [for attr, value in attribute_tuples], printing the attributes whose
    name does not start with an underscore. *)
Fixpoint _print_attributes (attribute_tuples : list (string * value))
  : M SimpleExtension.t printed unit :=
  match attribute_tuples with
  | [] => mret tt
  | (attr, v) :: rest =>
      _ ← (if String.prefix "_" attr then mret tt
           else print [VStr tab; VStr (attr +:+ ":"); v]);
      _print_attributes rest
  end.

(** [n * s] on strings. *)
Fixpoint times (n : nat) (s : string) : string :=
  match n with
  | O => ""
  | S n => s +:+ times n s
  end.

(** The characters of a string, as iterating over it gives them. *)
Fixpoint characters (s : string) : list string :=
  match s with
  | EmptyString => []
  | String c rest => String c "" :: characters rest
  end.

(** The line of dashes, joined from the characters of [79 * "-"]. *)
Definition rule : string := String.concat "" (characters (times 79 "-")).

(** [self.main_loop.log] *)
Definition get_log : M SimpleExtension.t printed Log :=
  fun self =>
    match SimpleExtension.main_loop self with
    | Some ml => (Returned (log ml), self, [])
    | None => (Raised (AttributeError "main_loop"), self, [])
    end.

Section Do.
(** Iterating over [log.status] and over [log.current_row] gives pairs of
    an attribute name and its value.  The classes of both are outside this
    file, so what the iteration gives is left open. *)
Variable status_items : Status -> list (string * value).
Variable row_items : gmap string value -> list (string * value).

Definition do (which_callback : string) (args : list value)
  : M SimpleExtension.t printed unit :=
  log ← get_log;
  _ ← print [VStr rule];
  _ ← (if String.eqb which_callback "before_epoch" &&
          py_eq (VInt (epochs_done (status (log : Log)))) (VInt 0)
       then print [VStr "BEFORE FIRST EPOCH"]
       else if String.eqb which_callback "after_training"
       then print [VStr "TRAINING HAS BEEN FINISHED:"]
       else if String.eqb which_callback "after_epoch"
       then print [VStr "AFTER ANOTHER EPOCH"]
       else mret tt);
  _ ← print [VStr rule];
  _ ← print [VStr "Training status:"];
  _ ← _print_attributes (status_items (status log));
  _ ← print [VStr ("Log records from the iteration " +:+
                   pretty (iterations_done (status log)) +:+ ":")];
  _print_attributes (row_items (current_row log)).
End Do.

(** The line that announces a callback, when there is one. *)
Definition header (which_callback : string) (l : Log) : option string :=
  if String.eqb which_callback "before_epoch" && (epochs_done (status l) =? 0)
  then Some "BEFORE FIRST EPOCH"
  else if String.eqb which_callback "after_training"
  then Some "TRAINING HAS BEEN FINISHED:"
  else if String.eqb which_callback "after_epoch"
  then Some "AFTER ANOTHER EPOCH"
  else None.

(** The line printed for an attribute. *)
Definition attribute_line (item : string * value) : printed :=
  Print [VStr tab; VStr (item.1 +:+ ":"); item.2].

(** An attribute is public when its name does not start with an
    underscore. *)
Definition public (item : string * value) : bool :=
  negb (String.prefix "_" item.1).

(** [do] only reads the main loop: on the main loop it has no effect. *)
Definition effect (which_callback : string) (args : list value)
    (ml : MainLoop) : MainLoop := ml.

Definition dispatch := SimpleExtension.dispatch effect.

End Printing.

(** ** Extensions and logs used as examples *)

Module Examples.
Import SimpleExtension.

Definition log_at (epochs iterations : Z) : Log :=
  mkLog (mkStatus epochs iterations) ∅.

Definition batch : value := VObj 1.

(** An extension that acts after every epoch and, with an argument of
    its own, once more when two epochs are done. *)
Definition every_epoch_and_second : t :=
  add_condition "after_epoch"
    (Some (fun l => epochs_done (status l) =? 2)) (Some [VStr "second"])
    (__init__
       {| before_first_epoch := VBool false;
          after_every_epoch := VBool true;
          after_every_batch := VBool false;
          after_training := VBool false;
          after_n_epochs := VNone;
          after_n_batches := VNone |}).

(** The same extension, in a main loop that has done two epochs. *)
Definition after_second_epoch : t :=
  attach (mkMainLoop (log_at 2 10)) every_epoch_and_second.

(** An extension without conditions, in a main loop that starts. *)
Definition idle : t := attach (mkMainLoop (log_at 0 0)) (__init__ defaults).

(** The callbacks of a run of one epoch of five batches that goes on
    with a second epoch, as far as the epochs are concerned. *)
Definition one_epoch_and_on : list Step :=
  [mkStep (log_at 0 0) "before_epoch" [];
   mkStep (log_at 1 5) "after_epoch" [];
   mkStep (log_at 1 5) "before_epoch" []].

(** The parameters of a construction with [after_every_epoch=True]. *)
Definition every_epoch : Parameters :=
  {| before_first_epoch := before_first_epoch defaults;
     after_every_epoch := VBool true;
     after_every_batch := after_every_batch defaults;
     after_training := after_training defaults;
     after_n_epochs := after_n_epochs defaults;
     after_n_batches := after_n_batches defaults |}.

(** The ends of three epochs of five batches. *)
Definition three_epochs : list Step :=
  [mkStep (log_at 1 5) "after_epoch" [];
   mkStep (log_at 2 10) "after_epoch" [];
   mkStep (log_at 3 15) "after_epoch" []].

(** A status that gives its two counters and an attribute of its own
    when it is iterated over, and a row that gives its attributes. *)
Definition status_items (s : Status) : list (string * value) :=
  [("epochs_done", VInt (epochs_done s));
   ("iterations_done", VInt (iterations_done s));
   ("_epoch_started", VBool true)].

Definition row_items (row : gmap string value) : list (string * value) :=
  map_to_list row.
End Examples.

(** * Properties *)

Import SimpleExtension.

(** ** The computations *)

Section ComputationLaws.
Context {S E : Type}.

Lemma bind_returned {A B} (m : M S E A) (k : A -> M S E B) self a self' tr :
  m self = (Returned a, self', tr) ->
  (m ≫= k) self =
  (result (k a self'), final (k a self'), tr ++ trace (k a self')).
Proof.
  intros Hm. unfold mbind, M_bind, bind. rewrite Hm.
  destruct (k a self') as [[r s] tr']. reflexivity.
Qed.

Lemma bind_raised {A B} (m : M S E A) (k : A -> M S E B) self e self' tr :
  m self = (Raised e, self', tr) ->
  (m ≫= k) self = (Raised e, self', tr).
Proof. intros Hm. unfold mbind, M_bind, bind. rewrite Hm. reflexivity. Qed.

Lemma bind_ret {A B} (a : A) (k : A -> M S E B) self :
  (mret a ≫= k) self = k a self.
Proof.
  unfold mbind, M_bind, bind, mret, M_ret, ret.
  destruct (k a self) as [[r s] tr]. reflexivity.
Qed.

Lemma bind_assoc {A B C} (m : M S E A) (k : A -> M S E B)
    (h : B -> M S E C) self :
  ((m ≫= k) ≫= h) self = (m ≫= (fun a => k a ≫= h)) self.
Proof.
  unfold mbind, M_bind, bind.
  destruct (m self) as [[[a|e] s1] tr1]; [|reflexivity].
  destruct (k a s1) as [[[b|e] s2] tr2]; [|reflexivity].
  destruct (h b s2) as [[r s3] tr3]. by rewrite app_assoc.
Qed.

Lemma bind_ext {A B} (m : M S E A) (k k' : A -> M S E B) self :
  (forall a s, k a s = k' a s) -> (m ≫= k) self = (m ≫= k') self.
Proof.
  intros Hk. unfold mbind, M_bind, bind.
  destruct (m self) as [[[a|e] s1] tr1]; [|reflexivity].
  by rewrite Hk.
Qed.
End ComputationLaws.

(** ** The loop of [SimpleExtension.dispatch] *)

Section DispatchLoop.
Variable do : string -> list value -> MainLoop -> MainLoop.
Variables (callback_invoked : string) (from_main_loop : list value).

(** One turn of the loop on an extension that belongs to a main loop: it
    does not raise, it makes the expected calls, and it leaves the main
    loop as [advance] says. *)
Lemma check_attached c ml conditions :
  check do callback_invoked from_main_loop c
    {| main_loop := Some ml; _conditions := conditions |} =
  (Returned tt,
   {| main_loop := Some (advance do callback_invoked from_main_loop ml c);
      _conditions := conditions |},
   expected callback_invoked from_main_loop (c, ml)).
Proof.
  unfold check, advance, satisfied, expected. simpl.
  destruct (String.eqb (callback_name c) callback_invoked); [|reflexivity].
  simpl. unfold mbind, M_bind, bind, get_log, call_predicate, call_do. simpl.
  destruct (predicate c (log ml)); reflexivity.
Qed.

(** A turn for a condition registered under another name does nothing at
    all, whether or not the extension belongs to a main loop. *)
Lemma check_other_name c self :
  callback_name c <> callback_invoked ->
  check do callback_invoked from_main_loop c self = (Returned tt, self, []).
Proof.
  intros Hne. unfold check.
  destruct (String.eqb_spec (callback_name c) callback_invoked);
    [contradiction|reflexivity].
Qed.

(** A turn never touches the condition list, even when it raises. *)
Lemma check_keeps_conditions c self :
  _conditions (final (check do callback_invoked from_main_loop c self)) =
  _conditions self.
Proof.
  destruct self as [[ml|] conditions].
  - by rewrite check_attached.
  - unfold check.
    destruct (String.eqb (callback_name c) callback_invoked); reflexivity.
Qed.

Lemma for_each_attached conditions : forall ml registered,
  for_each do conditions callback_invoked from_main_loop
    {| main_loop := Some ml; _conditions := registered |} =
  (Returned tt,
   {| main_loop :=
        Some (fold_left (advance do callback_invoked from_main_loop)
                conditions ml);
      _conditions := registered |},
   flat_map (expected callback_invoked from_main_loop)
     (reached do callback_invoked from_main_loop ml conditions)).
Proof.
  induction conditions as [|c rest IH]; intros ml registered; [reflexivity|].
  cbn [for_each reached fold_left flat_map].
  erewrite bind_returned by apply check_attached.
  rewrite IH. reflexivity.
Qed.

Lemma for_each_other_names conditions self :
  Forall (fun c => callback_name c <> callback_invoked) conditions ->
  for_each do conditions callback_invoked from_main_loop self =
  (Returned tt, self, []).
Proof.
  induction 1 as [|c rest Hc _ IH]; [reflexivity|].
  cbn [for_each].
  erewrite bind_returned by (apply check_other_name; exact Hc).
  rewrite IH. reflexivity.
Qed.

Lemma for_each_keeps_conditions conditions : forall self,
  _conditions
    (final (for_each do conditions callback_invoked from_main_loop self)) =
  _conditions self.
Proof.
  induction conditions as [|c rest IH]; intros self; [reflexivity|].
  cbn [for_each].
  pose proof (check_keeps_conditions c self) as Hc.
  destruct (check do callback_invoked from_main_loop c self)
    as [[[[]|e] self'] tr] eqn:Hcheck.
  - erewrite bind_returned by exact Hcheck. simpl in *.
    unfold final in *. simpl in *. rewrite IH. exact Hc.
  - erewrite bind_raised by exact Hcheck. exact Hc.
Qed.

(** Without a main loop, the first condition under the invoked name
    stops the dispatch: reading [self.main_loop] raises before any call. *)
Lemma for_each_unattached conditions registered :
  Exists (fun c => callback_name c = callback_invoked) conditions ->
  for_each do conditions callback_invoked from_main_loop
    {| main_loop := None; _conditions := registered |} =
  (Raised (AttributeError "main_loop"),
   {| main_loop := None; _conditions := registered |}, []).
Proof.
  induction conditions as [|c rest IH]; intros Hex.
  - inversion Hex.
  - cbn [for_each].
    destruct (String.eqb_spec (callback_name c) callback_invoked) as [Heq|Hne].
    + erewrite bind_raised; [reflexivity|]. unfold check.
      apply String.eqb_eq in Heq. rewrite Heq. reflexivity.
    + erewrite bind_returned by (apply check_other_name; exact Hne).
      rewrite IH; [reflexivity|].
      inversion Hex; subst; [contradiction|assumption].
Qed.

Lemma for_each_app l1 l2 self :
  for_each do (l1 ++ l2) callback_invoked from_main_loop self =
  (for_each do l1 callback_invoked from_main_loop ≫=
     fun _ => for_each do l2 callback_invoked from_main_loop) self.
Proof.
  revert self. induction l1 as [|c l1 IH]; intros self.
  - simpl. by rewrite bind_ret.
  - cbn [for_each app]. rewrite bind_assoc.
    apply bind_ext. intros _ s. apply IH.
Qed.

(** The calls of [do] and of predicates among the expected calls. *)
Lemma do_calls_expected l :
  do_calls (flat_map (expected callback_invoked from_main_loop) l) =
  map (fun cm => (callback_invoked, from_main_loop ++ arguments cm.1))
    (List.filter (fun cm => satisfied callback_invoked cm.1 (log cm.2)) l).
Proof.
  induction l as [|[c ml] l IH]; [reflexivity|].
  cbn [flat_map List.filter]. unfold do_calls in *. rewrite omap_app, IH.
  unfold expected, satisfied. simpl.
  destruct (String.eqb (callback_name c) callback_invoked); [|reflexivity].
  simpl. destruct (predicate c (log ml)); reflexivity.
Qed.

Lemma predicate_calls_expected l :
  predicate_calls (flat_map (expected callback_invoked from_main_loop) l) =
  map (fun cm => (cm.1, log cm.2))
    (List.filter
       (fun cm => String.eqb (callback_name cm.1) callback_invoked) l).
Proof.
  induction l as [|[c ml] l IH]; [reflexivity|].
  cbn [flat_map List.filter]. unfold predicate_calls in *.
  rewrite omap_app, IH. unfold expected. simpl.
  destruct (String.eqb (callback_name c) callback_invoked); [|reflexivity].
  simpl. destruct (predicate c (log ml)); reflexivity.
Qed.
End DispatchLoop.

Section Stable.
Variable do : string -> list value -> MainLoop -> MainLoop.
Variables (callback_invoked : string) (from_main_loop : list value).

(** When [do] does not change what the registered predicates answer, the
    conditions that are satisfied during a dispatch are those that are
    satisfied by the log as the dispatch finds it. *)
Lemma reached_stable ml conditions :
  (forall c which args ml',
      In c conditions ->
      predicate c (log (do which args ml')) = predicate c (log ml')) ->
  forall ml',
    (forall c, In c conditions ->
               predicate c (log ml') = predicate c (log ml)) ->
    map fst
      (List.filter (fun cm => satisfied callback_invoked cm.1 (log cm.2))
         (reached do callback_invoked from_main_loop ml' conditions)) =
    List.filter (fun c => satisfied callback_invoked c (log ml)) conditions.
Proof.
  induction conditions as [|c rest IH]; intros Hdo ml' Hml'; [reflexivity|].
  cbn [reached List.filter]. cbn [fst snd].
  assert (Hc : satisfied callback_invoked c (log ml') =
               satisfied callback_invoked c (log ml)).
  { unfold satisfied. rewrite (Hml' c) by (left; reflexivity). reflexivity. }
  assert (Hrest :
    map fst
      (List.filter (fun cm => satisfied callback_invoked cm.1 (log cm.2))
         (reached do callback_invoked from_main_loop
            (advance do callback_invoked from_main_loop ml' c) rest)) =
    List.filter (fun c => satisfied callback_invoked c (log ml)) rest).
  { apply IH.
    - intros c' which args ml'' Hin. apply Hdo. right. exact Hin.
    - intros c' Hin. unfold advance.
      destruct (satisfied callback_invoked c (log ml')).
      + rewrite Hdo by (right; exact Hin). apply Hml'. right. exact Hin.
      + apply Hml'. right. exact Hin. }
  rewrite Hc. destruct (satisfied callback_invoked c (log ml)).
  - cbn [map fst]. rewrite Hrest. reflexivity.
  - exact Hrest.
Qed.
End Stable.

(** ** [SimpleExtension.dispatch] *)

Section DispatchProperties.
Variable do : string -> list value -> MainLoop -> MainLoop.

(** C1: on an extension that belongs to a main loop, [dispatch] returns
    normally and calls [do] once for each registered condition that is
    satisfied, that is, whose callback name is the invoked one and whose
    predicate holds of the log of the main loop when the loop comes to it,
    in registration order; each call receives the invoked name and the
    arguments of the main loop followed by the arguments of the condition.
    There is no other call of [do].  When [do] does not change what the
    predicates answer, the satisfied conditions are those satisfied by the
    log as the dispatch finds it. *)
Theorem dispatch_calls_do_once_per_satisfied_condition
    (self : t) (ml : MainLoop) (callback_invoked : string)
    (from_main_loop : list value) :
  main_loop self = Some ml ->
  let r := dispatch do callback_invoked from_main_loop self in
  result r = Returned tt /\
  do_calls (trace r) =
  map (fun cm => (callback_invoked, from_main_loop ++ arguments cm.1))
    (List.filter (fun cm => satisfied callback_invoked cm.1 (log cm.2))
       (reached do callback_invoked from_main_loop ml (_conditions self))) /\
  ((forall c which args ml',
       In c (_conditions self) ->
       predicate c (log (do which args ml')) = predicate c (log ml')) ->
   do_calls (trace r) =
   map (fun c => (callback_invoked, from_main_loop ++ arguments c))
     (List.filter (fun c => satisfied callback_invoked c (log ml))
        (_conditions self))).
Proof.
  intros Hml r. subst r. destruct self as [m registered].
  simpl in Hml. subst m. unfold dispatch. cbn [_conditions].
  rewrite for_each_attached. split; [reflexivity|].
  unfold trace. cbn [snd]. rewrite do_calls_expected.
  split; [reflexivity|]. intros Hstable.
  rewrite <- (reached_stable do callback_invoked from_main_loop ml registered
                Hstable ml) by reflexivity.
  by rewrite map_map.
Qed.

(** C10: during a dispatch on an extension that belongs to a main loop,
    the predicates that are called are exactly those of the conditions
    registered under the invoked name, each once, in registration order,
    and each with the log of the main loop as its argument; the predicate
    of a condition registered under another name is not called. *)
Theorem dispatch_calls_predicates_of_invoked_name_only
    (self : t) (ml : MainLoop) (callback_invoked : string)
    (from_main_loop : list value) :
  main_loop self = Some ml ->
  let r := dispatch do callback_invoked from_main_loop self in
  predicate_calls (trace r) =
  map (fun cm => (cm.1, log cm.2))
    (List.filter
       (fun cm => String.eqb (callback_name cm.1) callback_invoked)
       (reached do callback_invoked from_main_loop ml (_conditions self))) /\
  map fst (predicate_calls (trace r)) =
  List.filter (fun c => String.eqb (callback_name c) callback_invoked)
    (_conditions self) /\
  Forall (fun call => callback_name call.1 = callback_invoked)
    (predicate_calls (trace r)).
Proof.
  intros Hml r. subst r. destruct self as [m registered].
  simpl in Hml. subst m. unfold dispatch. cbn [_conditions].
  rewrite for_each_attached. unfold trace. cbn [snd].
  rewrite predicate_calls_expected. split; [reflexivity|]. split.
  - rewrite map_map. cbn [fst]. generalize ml.
    induction registered as [|c rest IH]; intros ml'; [reflexivity|].
    cbn [reached List.filter]. cbn [fst].
    destruct (String.eqb (callback_name c) callback_invoked).
    + cbn [map fst]. rewrite IH. reflexivity.
    + apply IH.
  - apply List.Forall_forall. intros [c l] Hin.
    apply List.in_map_iff in Hin as [[c' ml'] [Heq Hin]].
    apply List.filter_In in Hin as [_ Hname]. simpl in *.
    inversion Heq; subst. by apply String.eqb_eq.
Qed.

(** C4: a dispatch under a name that no registered condition carries, a
    lifecycle callback or not, returns normally, makes no call at all and
    leaves the extension, its condition list and the log of its main loop
    as they were. *)
Theorem dispatch_unregistered_name_is_noop
    (self : t) (callback_invoked : string) (from_main_loop : list value) :
  Forall (fun c => callback_name c <> callback_invoked) (_conditions self) ->
  dispatch do callback_invoked from_main_loop self = (Returned tt, self, []).
Proof. intros Hnames. unfold dispatch. by apply for_each_other_names. Qed.

(** C9: [add_condition] appends one triple, made of the name, the
    predicate and the arguments it was given, after the conditions
    registered before, which it keeps in their order; [dispatch] leaves the
    list as it is, whatever it calls and even when it raises. *)
Theorem conditions_append_only
    (self : t) (name : string) (p : option (Log -> bool))
    (a : option (list value)) (callback_invoked : string)
    (from_main_loop : list value) :
  (exists c,
      _conditions (add_condition name p a self) = _conditions self ++ [c] /\
      callback_name c = name /\
      predicate c = default (fun _ => true) p /\
      arguments c = default [] a) /\
  _conditions (final (dispatch do callback_invoked from_main_loop self)) =
  _conditions self.
Proof.
  split.
  - eexists. split; [reflexivity|]. cbn [callback_name predicate arguments].
    split; [reflexivity|]. split.
    + destruct p; reflexivity.
    + destruct a as [[|? ?]|]; reflexivity.
  - unfold dispatch. apply for_each_keeps_conditions.
Qed.
End DispatchProperties.

Lemma dispatch_calls_do_once_per_satisfied_condition_witness :
  main_loop Examples.after_second_epoch =
    Some (mkMainLoop (Examples.log_at 2 10)) /\
  result (dispatch FinishAfter.do "after_epoch" [] Examples.after_second_epoch)
    = Returned tt /\
  do_calls
    (trace (dispatch FinishAfter.do "after_epoch" []
              Examples.after_second_epoch)) =
  [("after_epoch", []); ("after_epoch", [VStr "second"])].
Proof.
  split; [reflexivity|].
  pose proof (dispatch_calls_do_once_per_satisfied_condition FinishAfter.do
                Examples.after_second_epoch
                (mkMainLoop (Examples.log_at 2 10))
                "after_epoch" [] eq_refl) as (Hresult & _ & Hstable).
  split; [exact Hresult|]. apply Hstable.
  intros c which args ml' [<-|[<-|[]]]; reflexivity.
Defined.

Lemma dispatch_calls_predicates_of_invoked_name_only_witness :
  main_loop Examples.after_second_epoch =
    Some (mkMainLoop (Examples.log_at 2 10)) /\
  map fst
    (predicate_calls
       (trace (dispatch FinishAfter.do "after_epoch" [Examples.batch]
                 Examples.after_second_epoch))) =
  _conditions Examples.every_epoch_and_second /\
  predicate_calls
    (trace (dispatch FinishAfter.do "before_epoch" []
              Examples.after_second_epoch)) = [].
Proof.
  split; [reflexivity|]. split.
  - exact (proj1 (proj2
             (dispatch_calls_predicates_of_invoked_name_only FinishAfter.do
                Examples.after_second_epoch
                (mkMainLoop (Examples.log_at 2 10))
                "after_epoch" [Examples.batch] eq_refl))).
  - exact (proj1
             (dispatch_calls_predicates_of_invoked_name_only FinishAfter.do
                Examples.after_second_epoch
                (mkMainLoop (Examples.log_at 2 10))
                "before_epoch" [] eq_refl)).
Defined.

Lemma dispatch_unregistered_name_is_noop_witness :
  Forall (fun c => callback_name c <> "on_interrupt")
    (_conditions Examples.every_epoch_and_second) /\
  dispatch FinishAfter.do "on_interrupt" [] Examples.every_epoch_and_second =
  (Returned tt, Examples.every_epoch_and_second, []).
Proof.
  assert (Hnames : Forall (fun c => callback_name c <> "on_interrupt")
                     (_conditions Examples.every_epoch_and_second))
    by (repeat constructor; discriminate).
  split; [exact Hnames|].
  exact (dispatch_unregistered_name_is_noop FinishAfter.do
           Examples.every_epoch_and_second "on_interrupt" [] Hnames).
Defined.

(** ** [SimpleExtension.add_condition] *)

Section Registration.
Variable do : string -> list value -> MainLoop -> MainLoop.

(** A dispatch after one more registration: the calls made for the
    conditions registered before, then those for the new condition, on
    the main loop as the earlier conditions left it. *)
Lemma dispatch_after_add_condition self ml name p a callback_invoked
    from_main_loop :
  main_loop self = Some ml ->
  let before := dispatch do callback_invoked from_main_loop self in
  let c := mkCondition name (default (fun _ => true) p) (default [] a) in
  exists ml',
    before =
    (Returned tt, {| main_loop := Some ml'; _conditions := _conditions self |},
     trace before) /\
    trace (dispatch do callback_invoked from_main_loop
             (add_condition name p a self)) =
    trace before ++ expected callback_invoked from_main_loop (c, ml').
Proof.
  intros Hml before c. subst before. destruct self as [m registered].
  simpl in Hml. subst m. unfold dispatch, add_condition.
  cbn [_conditions main_loop].
  replace (mkCondition name match p with Some p0 => p0 | None => fun _ => true end
             match a with Some (a0 :: l) => a0 :: l | _ => [] end)
    with c by (subst c; destruct p, a as [[|? ?]|]; reflexivity).
  rewrite for_each_app.
  erewrite bind_returned by apply for_each_attached.
  rewrite for_each_attached. cbn [for_each].
  erewrite bind_returned by apply check_attached.
  eexists. split; [reflexivity|]. unfold trace. cbn [snd].
  unfold mret, M_ret, ret. cbn [snd]. by rewrite app_nil_r.
Qed.

(** C5: a condition registered without a predicate (omitted or [None])
    has a predicate that holds of every log, so every dispatch under its
    name calls [do] for it; a condition registered without arguments
    (omitted or [None]) has no arguments of its own, so [do] receives for
    it the invoked name and the arguments of the main loop and nothing
    more. *)
Theorem add_condition_defaults
    (self : t) (ml : MainLoop) (name : string) (p : option (Log -> bool))
    (a : option (list value)) (from_main_loop : list value) :
  main_loop self = Some ml ->
  let before := dispatch do name from_main_loop self in
  (exists c,
      _conditions (add_condition name None a self) = _conditions self ++ [c] /\
      (forall l, predicate c l = true) /\
      do_calls (trace (dispatch do name from_main_loop
                         (add_condition name None a self))) =
      do_calls (trace before) ++ [(name, from_main_loop ++ arguments c)]) /\
  (exists c ml',
      _conditions (add_condition name p None self) = _conditions self ++ [c] /\
      arguments c = [] /\
      main_loop (final before) = Some ml' /\
      do_calls (trace (dispatch do name from_main_loop
                         (add_condition name p None self))) =
      do_calls (trace before) ++
      (if predicate c (log ml') then [(name, from_main_loop)] else [])).
Proof.
  intros Hml before. split.
  - destruct (dispatch_after_add_condition self ml name None a name
                from_main_loop Hml) as (ml' & _ & Htrace).
    eexists. split; [reflexivity|]. split; [reflexivity|].
    fold before in Htrace. rewrite Htrace. unfold do_calls.
    rewrite omap_app. f_equal. unfold expected. cbn.
    rewrite String.eqb_refl. cbn. destruct a as [[|? ?]|]; reflexivity.
  - destruct (dispatch_after_add_condition self ml name p None name
                from_main_loop Hml) as (ml' & Hbefore & Htrace).
    fold before in Hbefore, Htrace.
    eexists. exists ml'. split; [reflexivity|]. split; [reflexivity|]. split.
    + rewrite Hbefore. reflexivity.
    + rewrite Htrace. unfold do_calls. rewrite omap_app. f_equal.
      unfold expected. cbn. rewrite String.eqb_refl. cbn.
      destruct p as [q|]; cbn.
      * destruct (q (log ml')); cbn; by rewrite ?app_nil_r.
      * by rewrite app_nil_r.
Qed.
End Registration.

Lemma add_condition_defaults_witness :
  main_loop Examples.idle = Some (mkMainLoop (Examples.log_at 0 0)) /\
  exists c,
    _conditions (add_condition "after_batch" None None Examples.idle) =
      _conditions Examples.idle ++ [c] /\
    (forall l, predicate c l = true) /\
    do_calls (trace (dispatch FinishAfter.do "after_batch" [Examples.batch]
                       (add_condition "after_batch" None None Examples.idle))) =
    [("after_batch", [Examples.batch] ++ arguments c)].
Proof.
  split; [reflexivity|].
  exact (proj1
           (add_condition_defaults FinishAfter.do Examples.idle
              (mkMainLoop (Examples.log_at 0 0)) "after_batch" None None
              [Examples.batch] eq_refl)).
Defined.

(** ** Runs *)

Section Runs.
Variable do : string -> list value -> MainLoop -> MainLoop.

(** A run never raises, keeps the conditions and makes at each step the
    calls of the dispatch of that step. *)
Lemma run_trace steps : forall self,
  exists self',
    run do steps self =
    (Returned tt, self',
     flat_map (expected_in_run do (_conditions self)) steps)
    /\ _conditions self' = _conditions self.
Proof.
  induction steps as [|s rest IH]; intros self.
  - exists self. split; reflexivity.
  - cbn [run flat_map].
    destruct (IH {| main_loop :=
                      Some (fold_left
                              (advance do (callback s) (from_host s))
                              (_conditions self) (mkMainLoop (at_log s)));
                    _conditions := _conditions self |})
      as (self' & Hrun & Hconditions).
    exists self'. split; [|exact Hconditions].
    erewrite bind_returned
      by (unfold dispatch, attach; cbn [_conditions];
          apply for_each_attached).
    rewrite Hrun. reflexivity.
Qed.

Lemma expected_other_names callback_invoked from_main_loop conditions :
  Forall (fun c => callback_name c <> callback_invoked) conditions ->
  forall ml,
    flat_map (expected callback_invoked from_main_loop)
      (reached do callback_invoked from_main_loop ml conditions) = [].
Proof.
  induction 1 as [|c rest Hc _ IH]; intros ml; [reflexivity|].
  cbn [reached flat_map]. rewrite IH, app_nil_r. unfold expected.
  cbn [fst]. apply String.eqb_neq in Hc. rewrite Hc. reflexivity.
Qed.

Lemma calls_under_app name tr1 tr2 :
  calls_under name (tr1 ++ tr2) = calls_under name tr1 ++ calls_under name tr2.
Proof.
  unfold calls_under, do_calls. by rewrite omap_app, List.filter_app.
Qed.

(** The calls of [do] in a dispatch are all made under the invoked
    name. *)
Lemma calls_under_other name callback_invoked from_main_loop l :
  callback_invoked <> name ->
  calls_under name (flat_map (expected callback_invoked from_main_loop) l)
  = [].
Proof.
  intros Hne. unfold calls_under. rewrite do_calls_expected.
  apply String.eqb_neq in Hne.
  induction (List.filter
               (fun cm => satisfied callback_invoked cm.1 (log cm.2)) l)
    as [|cm l' IH]; [reflexivity|].
  cbn [map List.filter fst]. rewrite Hne. exact IH.
Qed.
End Runs.

(** ** [SimpleExtension.__init__] *)

Section Construction.
Variable do : string -> list value -> MainLoop -> MainLoop.

(** With [before_first_epoch] set, the first condition is the one on
    [before_epoch], and it is the only one under that name. *)
Lemma init_before_first_epoch p :
  before_first_epoch p = VBool true ->
  exists c others,
    _conditions (__init__ p) = c :: others /\
    callback_name c = "before_epoch" /\
    (forall l, predicate c l = (epochs_done (status l) =? 0)) /\
    arguments c = [] /\
    Forall (fun c' => callback_name c' <> "before_epoch") others.
Proof.
  intros Hflag. unfold __init__, when. rewrite Hflag. cbn [truthy].
  destruct (truthy (after_every_epoch p)), (truthy (after_every_batch p)),
    (truthy (after_training p)), (truthy (after_n_epochs p)),
    (truthy (after_n_batches p));
    (eexists; eexists; split; [reflexivity|];
     split; [reflexivity|]; split; [reflexivity|]; split; [reflexivity|];
     repeat constructor; discriminate).
Qed.

(** What one step of a run contributes to the calls of [do] under
    [before_epoch], for such an extension. *)
Lemma before_epoch_calls_at_step p s :
  before_first_epoch p = VBool true ->
  calls_under "before_epoch"
    (expected_in_run do (_conditions (__init__ p)) s) =
  if before_first s then [("before_epoch", from_host s)] else [].
Proof.
  intros Hflag.
  destruct (init_before_first_epoch p Hflag)
    as (c & others & -> & Hname & Hpred & Hargs & Hothers).
  unfold expected_in_run, before_first.
  destruct (String.eqb_spec (callback s) "before_epoch") as [Heq|Hne].
  - rewrite Heq. cbn [reached flat_map].
    rewrite expected_other_names by exact Hothers. rewrite app_nil_r.
    unfold expected. cbn [fst snd log]. rewrite Hname, Hpred, Hargs.
    cbn. destruct (epochs_done (status (at_log s)) =? 0);
      cbn; by rewrite ?app_nil_r.
  - cbn [andb]. by apply calls_under_other.
Qed.

Lemma before_epoch_calls_in_run p steps self :
  before_first_epoch p = VBool true ->
  _conditions self = _conditions (__init__ p) ->
  result (run do steps self) = Returned tt /\
  calls_under "before_epoch" (trace (run do steps self)) =
  map (fun s => ("before_epoch", from_host s))
    (List.filter before_first steps).
Proof.
  intros Hflag Hself.
  destruct (run_trace do steps self) as (self' & -> & _).
  split; [reflexivity|]. unfold trace. cbn [snd]. rewrite Hself.
  induction steps as [|s rest IH]; [reflexivity|].
  cbn [flat_map List.filter]. rewrite calls_under_app, IH.
  rewrite before_epoch_calls_at_step by exact Hflag.
  destruct (before_first s); reflexivity.
Qed.

(** An extension constructed with [before_first_epoch] alone calls [do]
    under [before_epoch] only. *)
Lemma only_before_epoch_calls p steps :
  _conditions (__init__ p) =
  [mkCondition "before_epoch"
     (fun l => py_eq (VInt (epochs_done (status l))) (VInt 0)) []] ->
  do_calls (trace (run do steps (__init__ p))) =
  calls_under "before_epoch" (trace (run do steps (__init__ p))).
Proof.
  intros Hconditions.
  destruct (run_trace do steps (__init__ p)) as (self' & -> & _).
  unfold trace. cbn [snd]. rewrite Hconditions.
  induction steps as [|s rest IH]; [reflexivity|].
  cbn [flat_map]. rewrite calls_under_app. unfold do_calls in *.
  rewrite omap_app, IH. f_equal.
  unfold expected_in_run. cbn [reached flat_map]. rewrite app_nil_r.
  unfold expected, calls_under, do_calls. cbn [fst snd callback_name].
  destruct (String.eqb_spec "before_epoch" (callback s)) as [<-|Hne];
    [|reflexivity].
  cbn. destruct (epochs_done (status (at_log s)) =? 0); reflexivity.
Qed.
End Construction.

Lemma filter_one_split {A} (f : A -> bool) (l : list A) :
  length (List.filter f l) = 1%nat ->
  exists l1 x l2,
    l = l1 ++ x :: l2 /\ f x = true /\
    List.filter f l1 = [] /\ List.filter f l2 = [].
Proof.
  induction l as [|y l IH]; cbn [List.filter]; [discriminate|].
  destruct (f y) eqn:Hy.
  - cbn [length]. intros Hlen. exists [], y, l.
    repeat split; [exact Hy|].
    destruct (List.filter f l); [reflexivity|discriminate].
  - intros Hlen. destruct (IH Hlen) as (l1 & x & l2 & -> & Hx & H1 & H2).
    exists (y :: l1), x, l2. repeat split; [exact Hx| |exact H2].
    cbn [List.filter]. rewrite Hy. exact H1.
Qed.

Section FirstEpoch.
Variable do : string -> list value -> MainLoop -> MainLoop.

(** C6: an extension constructed with [before_first_epoch=True] has one
    condition under [before_epoch], with the predicate [epochs_done == 0];
    a dispatch of [before_epoch] calls [do] when [epochs_done] is 0 and
    not otherwise; and in a run where [epochs_done] is 0 at exactly one
    dispatch of [before_epoch], [do] is called under [before_epoch] once,
    at that step, and not again in the steps that follow.  When no other
    keyword is passed this is the only call of [do] in the run. *)
Theorem before_first_epoch_fires_once (p : Parameters) (steps : list Step) :
  before_first_epoch p = VBool true ->
  length (List.filter before_first steps) = 1%nat ->
  (exists c,
      List.filter (fun c => String.eqb (callback_name c) "before_epoch")
        (_conditions (__init__ p)) = [c] /\
      forall l, predicate c l = (epochs_done (status l) =? 0)) /\
  (forall l from_main_loop,
      do_calls (trace (dispatch do "before_epoch" from_main_loop
                         (attach (mkMainLoop l) (__init__ p)))) =
      if epochs_done (status l) =? 0
      then [("before_epoch", from_main_loop)] else []) /\
  (exists earlier s later,
      steps = earlier ++ s :: later /\
      before_first s = true /\
      result (run do steps (__init__ p)) = Returned tt /\
      calls_under "before_epoch"
        (trace (run do (earlier ++ [s]) (__init__ p))) =
      [("before_epoch", from_host s)] /\
      calls_under "before_epoch" (trace (run do steps (__init__ p))) =
      [("before_epoch", from_host s)]) /\
  length (do_calls (trace (run do steps
                             (__init__ (only_before_first_epoch (VBool true))))))
  = 1%nat.
Proof.
  intros Hflag Hone.
  destruct (init_before_first_epoch p Hflag)
    as (c & others & Hconditions & Hname & Hpred & Hargs & Hothers).
  split; [|split; [|split]].
  - exists c. split; [|exact Hpred]. rewrite Hconditions.
    cbn [List.filter]. rewrite Hname. cbn.
    f_equal. clear Hconditions.
    induction Hothers as [|c' rest Hc' _ IH]; [reflexivity|].
    cbn [List.filter]. apply String.eqb_neq in Hc'. rewrite Hc'. exact IH.
  - intros l from_main_loop. unfold dispatch, attach. cbn [_conditions].
    rewrite for_each_attached. unfold trace. cbn [snd].
    rewrite Hconditions. cbn [reached flat_map].
    rewrite expected_other_names by exact Hothers. rewrite app_nil_r.
    unfold expected, do_calls. cbn [fst snd log]. rewrite Hname, Hpred, Hargs.
    cbn. destruct (epochs_done (status l) =? 0); cbn; by rewrite ?app_nil_r.
  - destruct (filter_one_split _ _ Hone)
      as (earlier & s & later & -> & Hs & Hearlier & Hlater).
    exists earlier, s, later. split; [reflexivity|]. split; [exact Hs|].
    destruct (before_epoch_calls_in_run do p (earlier ++ s :: later)
                (__init__ p) Hflag eq_refl) as [Hresult Hcalls].
    destruct (before_epoch_calls_in_run do p (earlier ++ [s])
                (__init__ p) Hflag eq_refl) as [_ Hprefix].
    split; [exact Hresult|]. split.
    + rewrite Hprefix, List.filter_app, Hearlier. cbn [List.filter].
      rewrite Hs. reflexivity.
    + rewrite Hcalls, List.filter_app, Hearlier. cbn [List.filter].
      rewrite Hs, Hlater. reflexivity.
  - rewrite only_before_epoch_calls by reflexivity.
    destruct (before_epoch_calls_in_run do
                (only_before_first_epoch (VBool true)) steps
                (__init__ (only_before_first_epoch (VBool true)))
                eq_refl eq_refl) as [_ ->].
    by rewrite length_map.
Qed.
End FirstEpoch.

Lemma before_first_epoch_fires_once_witness :
  before_first_epoch (only_before_first_epoch (VBool true)) = VBool true /\
  length (List.filter before_first Examples.one_epoch_and_on) = 1%nat /\
  length
    (do_calls
       (trace (run FinishAfter.do Examples.one_epoch_and_on
                 (__init__ (only_before_first_epoch (VBool true)))))) = 1%nat.
Proof.
  split; [reflexivity|]. split; [reflexivity|].
  exact (proj2 (proj2 (proj2
           (before_first_epoch_fires_once FinishAfter.do
              (only_before_first_epoch (VBool true))
              Examples.one_epoch_and_on eq_refl eq_refl)))).
Defined.

(** ** [after_n_epochs] and [after_n_batches] *)

Section AfterN.
Variable do : string -> list value -> MainLoop -> MainLoop.

(** For a count other than 0, the keyword registers one condition on the
    callback, whose predicate compares the counter with the count, and
    a dispatch of the callback calls [do] when the two are equal and not
    otherwise. *)
Lemma after_n_epochs_nonzero (n : Z) l from_main_loop :
  n <> 0 ->
  (exists c,
      _conditions (__init__ (only_after_n_epochs (VInt n))) = [c] /\
      callback_name c = "after_epoch" /\
      forall l', predicate c l' = (epochs_done (status l') =? n)) /\
  do_calls (trace (dispatch do "after_epoch" from_main_loop
                     (attach (mkMainLoop l)
                        (__init__ (only_after_n_epochs (VInt n)))))) =
  if epochs_done (status l) =? n
  then [("after_epoch", from_main_loop)] else [].
Proof.
  intros Hn. apply Z.eqb_neq in Hn.
  unfold __init__, when, only_after_n_epochs, dispatch, attach.
  cbn. rewrite Hn. cbn. split.
  - eexists. split; [reflexivity|]. split; reflexivity.
  - unfold mbind, M_bind, bind, get_log, call_predicate, call_do. cbn.
    destruct (epochs_done (status l) =? n); cbn; by rewrite ?app_nil_r.
Qed.

Lemma after_n_batches_nonzero (n : Z) l from_main_loop :
  n <> 0 ->
  (exists c,
      _conditions (__init__ (only_after_n_batches (VInt n))) = [c] /\
      callback_name c = "after_batch" /\
      forall l', predicate c l' = (iterations_done (status l') =? n)) /\
  do_calls (trace (dispatch do "after_batch" from_main_loop
                     (attach (mkMainLoop l)
                        (__init__ (only_after_n_batches (VInt n)))))) =
  if iterations_done (status l) =? n
  then [("after_batch", from_main_loop)] else [].
Proof.
  intros Hn. apply Z.eqb_neq in Hn.
  unfold __init__, when, only_after_n_batches, dispatch, attach.
  cbn. rewrite Hn. cbn. split.
  - eexists. split; [reflexivity|]. split; reflexivity.
  - unfold mbind, M_bind, bind, get_log, call_predicate, call_do. cbn.
    destruct (iterations_done (status l) =? n); cbn; by rewrite ?app_nil_r.
Qed.

(** C2, at the count 0: [if after_n_epochs:] and [if after_n_batches:]
    take 0 for false, so no condition is registered, and a dispatch of the
    callback at the moment the counter is 0 does not call [do]. *)
Theorem after_n_zero_registers_nothing (from_main_loop : list value) :
  _conditions (__init__ (only_after_n_epochs (VInt 0))) = [] /\
  _conditions (__init__ (only_after_n_batches (VInt 0))) = [] /\
  do_calls (trace (dispatch do "after_epoch" from_main_loop
                     (attach (mkMainLoop (Examples.log_at 0 0))
                        (__init__ (only_after_n_epochs (VInt 0)))))) = [] /\
  do_calls (trace (dispatch do "after_batch" from_main_loop
                     (attach (mkMainLoop (Examples.log_at 0 0))
                        (__init__ (only_after_n_batches (VInt 0)))))) = [].
Proof. repeat split. Qed.
End AfterN.

(** ** [FinishAfter] *)

(** C7: a [FinishAfter] constructed with [after_training=True] and
    dispatched under [after_training] returns normally after one call of
    [do]; the current row of the log then has [training_finish_requested]
    true, and the other attributes of the row, the status and the
    conditions of the extension are as before.  Whatever the callback and
    the arguments, [do] sets this attribute and changes neither another
    attribute of the row nor the status. *)
Theorem finish_after_requests_finish
    (ml : MainLoop) (from_main_loop : list value) :
  exists ext,
    FinishAfter.__init__ {["after_training" := VBool true]} = Returned ext /\
    let r := FinishAfter.dispatch "after_training" from_main_loop
               (attach ml ext) in
    result r = Returned tt /\
    do_calls (trace r) = [("after_training", from_main_loop)] /\
    _conditions (final r) = _conditions ext /\
    (exists ml',
        main_loop (final r) = Some ml' /\
        current_row (log ml') !! "training_finish_requested" =
          Some (VBool true) /\
        (forall name, name <> "training_finish_requested" ->
                      current_row (log ml') !! name =
                      current_row (log ml) !! name) /\
        status (log ml') = status (log ml)) /\
    forall which_callback args ml0,
      let row := current_row (log (FinishAfter.do which_callback args ml0)) in
      row !! "training_finish_requested" = Some (VBool true) /\
      (forall name, name <> "training_finish_requested" ->
                    row !! name = current_row (log ml0) !! name) /\
      status (log (FinishAfter.do which_callback args ml0)) = status (log ml0).
Proof.
  assert (Hdo : forall which_callback args ml0,
             let row :=
               current_row (log (FinishAfter.do which_callback args ml0)) in
             row !! "training_finish_requested" = Some (VBool true) /\
             (forall name, name <> "training_finish_requested" ->
                           row !! name = current_row (log ml0) !! name) /\
             status (log (FinishAfter.do which_callback args ml0)) =
             status (log ml0)).
  { intros which_callback args ml0. cbn. split; [|split; [|reflexivity]].
    - apply lookup_insert_eq.
    - intros name Hname. by apply lookup_insert_ne. }
  eexists. split; [vm_compute; reflexivity|].
  cbn zeta. split; [reflexivity|]. split; [cbn; by rewrite app_nil_r|].
  split; [reflexivity|]. split; [|exact Hdo].
  eexists. split; [reflexivity|]. apply Hdo.
Qed.

(** ** [Printing.__init__] *)

Section PrintingDefaults.

Lemma set_if_absent_lookup name (kwargs : gmap string value) k :
  Printing.set_if_absent name kwargs !! k =
  if decide (k = name) then Some (default (VBool true) (kwargs !! k))
  else kwargs !! k.
Proof.
  unfold Printing.set_if_absent.
  destruct (kwargs !! name) as [v|] eqn:Hname; case_decide; subst;
    simplify_map_eq; reflexivity.
Qed.

Lemma set_if_absent_dom name (kwargs : gmap string value) :
  dom (Printing.set_if_absent name kwargs) = {[name]} ∪ dom kwargs.
Proof.
  unfold Printing.set_if_absent.
  destruct (kwargs !! name) as [v|] eqn:Hname.
  - apply (elem_of_dom_2 (D := gset string)) in Hname.
    apply leibniz_equiv. intros k. rewrite elem_of_union, elem_of_singleton.
    split; [by right|]. intros [->|Hk]; assumption.
  - by rewrite dom_insert_L.
Qed.

(** The test made on the keywords when they are bound. *)
Lemma keywords_accepted (kwargs : gmap string value) :
  forallb (fun name => existsb (String.eqb name) keywords)
    (elements (dom kwargs)) = true <->
  dom kwargs ⊆ list_to_set keywords.
Proof.
  rewrite List.forallb_forall. split.
  - intros Hall name Hin. apply elem_of_list_to_set, list_elem_of_In.
    apply elem_of_elements, list_elem_of_In, Hall in Hin.
    apply List.existsb_exists in Hin as (k & Hk & Heq).
    apply String.eqb_eq in Heq. by subst.
  - intros Hsub name Hin. apply List.existsb_exists. exists name.
    split; [|apply String.eqb_refl].
    apply list_elem_of_In, elem_of_elements, Hsub in Hin.
    by apply elem_of_list_to_set, list_elem_of_In in Hin.
Qed.

Lemma printing_keywords_accepted (kwargs : gmap string value) :
  let kwargs' :=
    Printing.set_if_absent "after_every_epoch"
      (Printing.set_if_absent "after_training"
         (Printing.set_if_absent "before_first_epoch" kwargs)) in
  forallb (fun name => existsb (String.eqb name) keywords)
    (elements (dom kwargs')) =
  forallb (fun name => existsb (String.eqb name) keywords)
    (elements (dom kwargs)).
Proof.
  intros kwargs'. apply eq_true_iff_eq. rewrite !keywords_accepted.
  subst kwargs'. rewrite !set_if_absent_dom. split.
  - intros Hsub k Hk. apply Hsub. rewrite !elem_of_union. by repeat right.
  - intros Hsub k. rewrite !elem_of_union, !elem_of_singleton.
    intros [->|[->|[->|Hk]]]; [| | |by apply Hsub];
      apply elem_of_list_to_set; unfold keywords;
      rewrite !elem_of_cons; tauto.
Qed.
End PrintingDefaults.

(** C8: [Printing.__init__] hands on to [SimpleExtension.__init__] the
    keywords it was given, with [before_first_epoch], [after_training] and
    [after_every_epoch] bound to [True] where the caller did not pass them
    and to the caller's value where it did.  Without any keyword it
    registers three conditions: on [before_epoch] with the predicate
    [epochs_done == 0], on [after_epoch] and on [after_training], both
    always true; with [after_training=False] passed, the condition on
    [after_training] is not registered. *)
Theorem printing_default_conditions (kwargs : gmap string value) :
  Printing.__init__ kwargs =
  match SimpleExtension.bind_keywords kwargs with
  | Returned p =>
      Returned
        (SimpleExtension.__init__
           {| SimpleExtension.before_first_epoch :=
                default (VBool true) (kwargs !! "before_first_epoch");
              SimpleExtension.after_every_epoch :=
                default (VBool true) (kwargs !! "after_every_epoch");
              SimpleExtension.after_every_batch :=
                SimpleExtension.after_every_batch p;
              SimpleExtension.after_training :=
                default (VBool true) (kwargs !! "after_training");
              SimpleExtension.after_n_epochs :=
                SimpleExtension.after_n_epochs p;
              SimpleExtension.after_n_batches :=
                SimpleExtension.after_n_batches p |})
  | Raised e => Raised e
  end /\
  (exists c1 c2 c3,
      Printing.__init__ ∅ =
        Returned (SimpleExtension.mk None [c1; c2; c3]) /\
      SimpleExtension.callback_name c1 = "before_epoch" /\
      (forall l,
          SimpleExtension.predicate c1 l = (epochs_done (status l) =? 0)) /\
      SimpleExtension.callback_name c2 = "after_epoch" /\
      (forall l, SimpleExtension.predicate c2 l = true) /\
      SimpleExtension.callback_name c3 = "after_training" /\
      (forall l, SimpleExtension.predicate c3 l = true)) /\
  (exists ext,
      Printing.__init__ {["after_training" := VBool false]} = Returned ext /\
      map SimpleExtension.callback_name (SimpleExtension._conditions ext) =
        ["before_epoch"; "after_epoch"]).
Proof.
  split; [|split].
  - unfold Printing.__init__, SimpleExtension.init_with,
      SimpleExtension.bind_keywords.
    rewrite printing_keywords_accepted.
    destruct (forallb _ (elements (dom kwargs))); [|reflexivity].
    rewrite !set_if_absent_lookup.
    repeat (case_decide; try done).
  - do 3 eexists. split; [vm_compute; reflexivity|].
    repeat split.
  - eexists. split; [vm_compute; reflexivity|]. reflexivity.
Qed.

(** ** [TrainingExtension.dispatch] *)

Section BaseDispatch.
Import TrainingExtension.
Context {S E : Type}.

Lemma computation_eta {A} (r : outcome A * S * list E) :
  (result r, final r, trace r) = r.
Proof. by destruct r as [[? ?] ?]. Qed.

(** C3: [dispatch] of the base class looks the callback name up on the
    extension.  When the name resolves to a method, the dispatch is the
    call of that method with the arguments it was given, unchanged; when
    the extension has no attribute of that name, the dispatch raises an
    [AttributeError] for it and neither returns nor changes the
    extension; an attribute that is no method cannot be called. *)
Theorem base_dispatch_resolves_by_name
    (attributes : S -> string -> option (attribute S E)) (self : S)
    (callback_name : string) (args : list value) :
  match attributes self callback_name with
  | Some (Method body) =>
      dispatch attributes callback_name args self = body args self
  | Some Data =>
      exists what,
        dispatch attributes callback_name args self =
        (Raised (TypeError what), self, [])
  | None =>
      dispatch attributes callback_name args self =
      (Raised (AttributeError callback_name), self, [])
  end.
Proof.
  unfold dispatch.
  destruct (attributes self callback_name) as [[body|]|] eqn:Hlookup.
  - erewrite bind_returned by (unfold getattr; rewrite Hlookup; reflexivity).
    cbn [call app]. apply computation_eta.
  - eexists.
    erewrite bind_returned by (unfold getattr; rewrite Hlookup; reflexivity).
    reflexivity.
  - erewrite bind_raised by (unfold getattr; rewrite Hlookup; reflexivity).
    reflexivity.
Qed.

(** The callbacks of the base class do nothing: dispatched with the
    arguments they take, they return and leave the extension as it
    was. *)
Lemma base_callbacks_do_nothing
    (attributes : S -> string -> option (attribute S E)) self batch :
  inherits attributes ->
  Forall (fun name =>
            dispatch attributes name [] self = (Returned tt, self, []))
    ["before_training"; "before_epoch"; "after_epoch"; "after_training";
     "on_interrupt"] /\
  Forall (fun name =>
            dispatch attributes name [batch] self = (Returned tt, self, []))
    ["before_batch"; "after_batch"].
Proof.
  intros Hinherits.
  split; repeat constructor; unfold dispatch;
    (erewrite bind_returned
       by (unfold getattr; erewrite Hinherits by reflexivity; reflexivity));
    reflexivity.
Qed.

End BaseDispatch.

(** * Further properties of the code *)

(** ** The callbacks of [TrainingExtension] *)

Section BaseCallbacks.
Context {S E : Type}.

Lemma base_attributes_inherits :
  TrainingExtension.inherits (TrainingExtension.base_attributes (S := S) (E := E)).
Proof.
  intros self name body Hname. unfold TrainingExtension.base_attributes.
  by rewrite Hname.
Qed.

(** A dispatch of a name that resolves to a method is the call of the
    method. *)
Lemma base_dispatch_method
    (attributes : S -> string -> option (TrainingExtension.attribute S E))
    self name body args :
  attributes self name = Some (TrainingExtension.Method body) ->
  TrainingExtension.dispatch attributes name args self = body args self.
Proof.
  intros Hname. unfold TrainingExtension.dispatch.
  erewrite bind_returned
    by (unfold TrainingExtension.getattr; rewrite Hname; reflexivity).
  apply computation_eta.
Qed.

(** The names of the seven callbacks. *)
Lemma callbacks_names name (body : list value -> M S E unit) :
  TrainingExtension.callbacks name = Some body ->
  (In name ["before_training"; "before_epoch"; "after_epoch";
            "after_training"; "on_interrupt"] /\
   body = TrainingExtension.without_argument name) \/
  (In name ["before_batch"; "after_batch"] /\
   body = TrainingExtension.with_batch name).
Proof.
  unfold TrainingExtension.callbacks.
  repeat match goal with
         | |- context [String.eqb name ?s] =>
             destruct (String.eqb_spec name s) as [->|_];
             [intros [= <-]; cbn; tauto|]
         end.
  discriminate.
Qed.

(** X1: dispatched on an extension that inherits them, each of the seven
    callbacks of the base class checks the number of its arguments and does
    nothing else: with the number it takes (the batch for [before_batch]
    and [after_batch], none for the others) it returns and leaves the
    extension as it was, with any other number it raises a [TypeError],
    again with the extension unchanged. *)
Theorem base_callbacks_check_their_arguments
    (attributes : S -> string -> option (TrainingExtension.attribute S E))
    (self : S) (name : string) (args : list value) :
  TrainingExtension.inherits attributes ->
  is_Some (TrainingExtension.callbacks (S := S) (E := E) name) ->
  if (length args =? TrainingExtension.takes name)%nat
  then TrainingExtension.dispatch attributes name args self =
       (Returned tt, self, [])
  else exists what,
      TrainingExtension.dispatch attributes name args self =
      (Raised (TypeError what), self, []).
Proof.
  intros Hinherits [body Hname].
  rewrite (base_dispatch_method attributes self name body args)
    by (apply Hinherits; exact Hname).
  destruct (callbacks_names name body Hname) as [[Hin ->]|[Hin ->]].
  - assert (Htakes : TrainingExtension.takes name = 0%nat).
    { cbn in Hin. destruct Hin as [<-|[<-|[<-|[<-|[<-|[]]]]]]; reflexivity. }
    rewrite Htakes. destruct args as [|a args]; cbn; [reflexivity|eauto].
  - assert (Htakes : TrainingExtension.takes name = 1%nat).
    { cbn in Hin. destruct Hin as [<-|[<-|[]]]; reflexivity. }
    rewrite Htakes. destruct args as [|a [|b args]]; cbn; eauto.
Qed.

End BaseCallbacks.

Lemma base_callbacks_check_their_arguments_witness :
  TrainingExtension.inherits
    (TrainingExtension.base_attributes (S := unit) (E := unit)) /\
  is_Some (TrainingExtension.callbacks (S := unit) (E := unit) "after_batch") /\
  TrainingExtension.dispatch (E := unit) TrainingExtension.base_attributes
    "after_batch" [Examples.batch] tt = (Returned tt, tt, []) /\
  exists what,
    TrainingExtension.dispatch (E := unit) TrainingExtension.base_attributes
      "after_batch" [] tt = (Raised (TypeError what), tt, []).
Proof.
  split; [apply base_attributes_inherits|].
  split; [eexists; reflexivity|]. split.
  - exact (base_callbacks_check_their_arguments
             TrainingExtension.base_attributes tt "after_batch"
             [Examples.batch] base_attributes_inherits
             (ex_intro _ _ eq_refl)).
  - exact (base_callbacks_check_their_arguments
             TrainingExtension.base_attributes tt "after_batch" []
             base_attributes_inherits (ex_intro _ _ eq_refl)).
Defined.

(** ** What [SimpleExtension.__init__] registers *)

(** The six conditions of [__init__], each present when its parameter
    holds a true value, in the order of the statements of the body. *)
Lemma init_conditions p :
  _conditions (__init__ p) =
  (if truthy (before_first_epoch p)
   then [mkCondition "before_epoch"
           (fun l => py_eq (VInt (epochs_done (status l))) (VInt 0)) []]
   else []) ++
  (if truthy (after_every_epoch p)
   then [mkCondition "after_epoch" (fun _ => true) []] else []) ++
  (if truthy (after_every_batch p)
   then [mkCondition "after_batch" (fun _ => true) []] else []) ++
  (if truthy (after_training p)
   then [mkCondition "after_training" (fun _ => true) []] else []) ++
  (if truthy (after_n_epochs p)
   then [mkCondition "after_epoch"
           (fun l => py_eq (VInt (epochs_done (status l))) (after_n_epochs p))
           []]
   else []) ++
  (if truthy (after_n_batches p)
   then [mkCondition "after_batch"
           (fun l =>
              py_eq (VInt (iterations_done (status l))) (after_n_batches p))
           []]
   else []).
Proof.
  unfold __init__, when.
  destruct (truthy (before_first_epoch p)), (truthy (after_every_epoch p)),
    (truthy (after_every_batch p)), (truthy (after_training p)),
    (truthy (after_n_epochs p)), (truthy (after_n_batches p)); reflexivity.
Qed.

(** A counter compared with a count given as a keyword. *)
Lemma py_eq_counts counter n : py_eq (VInt counter) n = counts n counter.
Proof. destruct n; reflexivity. Qed.

(** The conditions of [__init__] carry one of four names and no
    arguments. *)
Lemma init_condition_names p :
  Forall (fun c => In (callback_name c) triggers /\ arguments c = [])
    (_conditions (__init__ p)).
Proof.
  rewrite init_conditions. unfold triggers.
  destruct (truthy (before_first_epoch p)), (truthy (after_every_epoch p)),
    (truthy (after_every_batch p)), (truthy (after_training p)),
    (truthy (after_n_epochs p)), (truthy (after_n_batches p));
    cbn [app];
    repeat (apply List.Forall_cons; [split; [cbn; tauto|reflexivity]|]);
    apply List.Forall_nil.
Qed.

Lemma init_without_main_loop p : main_loop (__init__ p) = None.
Proof.
  unfold __init__, when.
  destruct (truthy (before_first_epoch p)), (truthy (after_every_epoch p)),
    (truthy (after_every_batch p)), (truthy (after_training p)),
    (truthy (after_n_epochs p)), (truthy (after_n_batches p)); reflexivity.
Qed.

(** X3: whatever the parameters, [__init__] leaves the extension without a
    main loop and registers one condition for each parameter that holds a
    true value, at most six; each of them is registered under
    [before_epoch], [after_epoch], [after_batch] or [after_training] and
    has no arguments of its own. *)
Theorem init_registers_one_condition_per_flag (p : Parameters) :
  main_loop (__init__ p) = None /\
  length (_conditions (__init__ p)) = flags_set p /\
  (length (_conditions (__init__ p)) <= 6)%nat /\
  Forall (fun c => In (callback_name c) triggers /\ arguments c = [])
    (_conditions (__init__ p)).
Proof.
  split; [apply init_without_main_loop|].
  split; [|split; [|apply init_condition_names]];
    rewrite init_conditions; unfold flags_set; cbn [List.filter];
    destruct (truthy (before_first_epoch p)), (truthy (after_every_epoch p)),
      (truthy (after_every_batch p)), (truthy (after_training p)),
      (truthy (after_n_epochs p)), (truthy (after_n_batches p));
    cbn; lia.
Qed.

Section InitDispatch.
Variable do : string -> list value -> MainLoop -> MainLoop.

(** X4: an extension that has only the conditions of [__init__] does
    nothing when a callback other than [before_epoch], [after_epoch],
    [after_batch] and [after_training] is dispatched, for instance
    [before_training], [before_batch] or [on_interrupt]: no predicate and
    no [do] is called, nothing is raised and the extension is unchanged,
    with or without a main loop. *)
Theorem init_ignores_other_callbacks (p : Parameters)
    (callback_invoked : string) (from_main_loop : list value)
    (ml : MainLoop) :
  ~ In callback_invoked triggers ->
  dispatch do callback_invoked from_main_loop (__init__ p) =
    (Returned tt, __init__ p, []) /\
  dispatch do callback_invoked from_main_loop (attach ml (__init__ p)) =
    (Returned tt, attach ml (__init__ p), []).
Proof.
  intros Hother.
  assert (Hnames : Forall (fun c => callback_name c <> callback_invoked)
                     (_conditions (__init__ p))).
  { eapply List.Forall_impl; [|apply init_condition_names].
    intros c [Hin _] Heq. apply Hother. by rewrite <- Heq. }
  split; unfold dispatch; by apply for_each_other_names.
Qed.
End InitDispatch.

Section InitCalls.
Variable do : string -> list value -> MainLoop -> MainLoop.

(** The calls of [do] in a dispatch on an extension that belongs to a main
    loop, read off the conditions. *)
Lemma attached_do_calls conditions ml callback_invoked from_main_loop :
  do_calls (trace (dispatch do callback_invoked from_main_loop
                     {| main_loop := Some ml; _conditions := conditions |})) =
  map (fun cm => (callback_invoked, from_main_loop ++ arguments cm.1))
    (List.filter (fun cm => satisfied callback_invoked cm.1 (log cm.2))
       (reached do callback_invoked from_main_loop ml conditions)).
Proof.
  unfold dispatch. cbn [_conditions]. rewrite for_each_attached.
  apply do_calls_expected.
Qed.

Ltac by_flags p :=
  unfold attach; rewrite !attached_do_calls, init_conditions;
  destruct (truthy (before_first_epoch p)), (truthy (after_every_epoch p)),
    (truthy (after_every_batch p)), (truthy (after_training p)),
    (truthy (after_n_epochs p)), (truthy (after_n_batches p));
  cbn -[py_eq]; rewrite ?app_nil_r;
  repeat match goal with
         | |- context [if ?b then _ else _] =>
             destruct b; cbn -[py_eq]; rewrite ?app_nil_r
         end;
  reflexivity.

(** The calls of [do] for the conditions of [__init__], callback by
    callback. *)
Lemma calls_on_after_training p ml from_main_loop :
  do_calls (trace (dispatch do "after_training" from_main_loop
                     (attach ml (__init__ p)))) =
  (if truthy (after_training p)
   then [("after_training", from_main_loop)] else []).
Proof. by_flags p. Qed.

Lemma calls_on_before_epoch p ml from_main_loop :
  do_calls (trace (dispatch do "before_epoch" from_main_loop
                     (attach ml (__init__ p)))) =
  (if truthy (before_first_epoch p) && (epochs_done (status (log ml)) =? 0)
   then [("before_epoch", from_main_loop)] else []).
Proof.
  replace (epochs_done (status (log ml)) =? 0)
    with (py_eq (VInt (epochs_done (status (log ml)))) (VInt 0))
    by reflexivity.
  by_flags p.
Qed.

Lemma calls_on_after_epoch p ml from_main_loop :
  do_calls (trace (dispatch do "after_epoch" from_main_loop
                     (attach ml (__init__ p)))) =
  (if truthy (after_every_epoch p)
   then [("after_epoch", from_main_loop)] else []) ++
  (if truthy (after_n_epochs p) &&
      counts (after_n_epochs p)
        (epochs_done
           (status (log (if truthy (after_every_epoch p)
                         then do "after_epoch" from_main_loop ml else ml))))
   then [("after_epoch", from_main_loop)] else []).
Proof. rewrite <- py_eq_counts. by_flags p. Qed.

Lemma calls_on_after_batch p ml from_main_loop :
  do_calls (trace (dispatch do "after_batch" from_main_loop
                     (attach ml (__init__ p)))) =
  (if truthy (after_every_batch p)
   then [("after_batch", from_main_loop)] else []) ++
  (if truthy (after_n_batches p) &&
      counts (after_n_batches p)
        (iterations_done
           (status (log (if truthy (after_every_batch p)
                         then do "after_batch" from_main_loop ml else ml))))
   then [("after_batch", from_main_loop)] else []).
Proof. rewrite <- py_eq_counts. by_flags p. Qed.

(** X5: for an extension that has the conditions of [__init__], whatever
    the parameters: a dispatch of [after_training] calls [do] once, with
    the arguments of the main loop, when [after_training] was passed as a
    true value, whatever the log says, and not at all otherwise; a
    dispatch of [before_epoch] calls [do] once when [before_first_epoch]
    was passed as a true value and no epoch is done, and not at all
    otherwise. *)
Theorem init_calls_on_after_training_and_before_epoch
    (p : Parameters) (ml : MainLoop) (from_main_loop : list value) :
  do_calls (trace (dispatch do "after_training" from_main_loop
                     (attach ml (__init__ p)))) =
  (if truthy (after_training p)
   then [("after_training", from_main_loop)] else []) /\
  do_calls (trace (dispatch do "before_epoch" from_main_loop
                     (attach ml (__init__ p)))) =
  (if truthy (before_first_epoch p) && (epochs_done (status (log ml)) =? 0)
   then [("before_epoch", from_main_loop)] else []).
Proof.
  split; [apply calls_on_after_training|apply calls_on_before_epoch].
Qed.

(** X6: for an extension that has the conditions of [__init__], a
    dispatch of [after_epoch] calls [do] for [after_every_epoch], when it
    was passed as a true value, and then for [after_n_epochs], when it was
    passed as a true value and equals the number of epochs done as the log
    says once the first call is over.  With both, [do] is called twice in
    the dispatch that finds the count reached.  A count passed as a
    boolean is compared as 1 or 0, and a count that is no number is equal
    to no counter. *)
Theorem init_calls_on_after_epoch
    (p : Parameters) (ml : MainLoop) (from_main_loop : list value) :
  let every := truthy (after_every_epoch p) in
  let ml' := if every then do "after_epoch" from_main_loop ml else ml in
  do_calls (trace (dispatch do "after_epoch" from_main_loop
                     (attach ml (__init__ p)))) =
  (if every then [("after_epoch", from_main_loop)] else []) ++
  (if truthy (after_n_epochs p) &&
      counts (after_n_epochs p) (epochs_done (status (log ml')))
   then [("after_epoch", from_main_loop)] else []).
Proof. cbv zeta. apply calls_on_after_epoch. Qed.

(** X7: the same for a dispatch of [after_batch], with
    [after_every_batch], [after_n_batches] and the number of iterations
    done. *)
Theorem init_calls_on_after_batch
    (p : Parameters) (ml : MainLoop) (from_main_loop : list value) :
  let every := truthy (after_every_batch p) in
  let ml' := if every then do "after_batch" from_main_loop ml else ml in
  do_calls (trace (dispatch do "after_batch" from_main_loop
                     (attach ml (__init__ p)))) =
  (if every then [("after_batch", from_main_loop)] else []) ++
  (if truthy (after_n_batches p) &&
      counts (after_n_batches p) (iterations_done (status (log ml')))
   then [("after_batch", from_main_loop)] else []).
Proof. cbv zeta. apply calls_on_after_batch. Qed.

(** *** In a run *)

(** The calls of [do] in a dispatch all carry the invoked name. *)
Lemma calls_under_same name from_main_loop l :
  calls_under name (flat_map (expected name from_main_loop) l) =
  do_calls (flat_map (expected name from_main_loop) l).
Proof.
  unfold calls_under. rewrite do_calls_expected.
  induction (List.filter (fun cm => satisfied name cm.1 (log cm.2)) l)
    as [|cm l' IH]; [reflexivity|].
  cbn [map List.filter fst]. rewrite String.eqb_refl, IH. reflexivity.
Qed.

(** The calls of [do] under one name in a run: those of the dispatches of
    that name, step by step. *)
Lemma run_calls_under name steps self :
  result (run do steps self) = Returned tt /\
  calls_under name (trace (run do steps self)) =
  flat_map
    (fun s =>
       if String.eqb (callback s) name
       then do_calls
              (trace (dispatch do name (from_host s)
                        (attach (mkMainLoop (at_log s)) self)))
       else [])
    steps.
Proof.
  destruct (run_trace do steps self) as (self' & -> & _).
  split; [reflexivity|]. unfold trace at 1. cbn [snd].
  induction steps as [|s rest IH]; [reflexivity|].
  cbn [flat_map]. rewrite calls_under_app, IH. f_equal.
  unfold expected_in_run.
  destruct (String.eqb_spec (callback s) name) as [->|Hne].
  - rewrite calls_under_same. unfold dispatch, attach. cbn [_conditions].
    by rewrite for_each_attached.
  - by apply calls_under_other.
Qed.

(** X8: in a run of an extension constructed with [after_every_epoch]
    passed as a true value and without a count of epochs, [do] is called
    under [after_epoch] once at each dispatch of [after_epoch], with the
    arguments of that dispatch, and the run does not raise: as many calls
    as epochs ended. *)
Theorem after_every_epoch_in_a_run (p : Parameters) (steps : list Step) :
  truthy (after_every_epoch p) = true ->
  truthy (after_n_epochs p) = false ->
  result (run do steps (__init__ p)) = Returned tt /\
  calls_under "after_epoch" (trace (run do steps (__init__ p))) =
  map (fun s => ("after_epoch", from_host s))
    (List.filter (fun s => String.eqb (callback s) "after_epoch") steps).
Proof.
  intros Hevery Hcount.
  destruct (run_calls_under "after_epoch" steps (__init__ p)) as [-> ->].
  split; [reflexivity|].
  induction steps as [|s rest IH]; [reflexivity|].
  cbn [flat_map List.filter]. rewrite IH.
  destruct (String.eqb (callback s) "after_epoch"); [|reflexivity].
  rewrite calls_on_after_epoch, Hevery, Hcount. reflexivity.
Qed.

(** X9: in a run of an extension constructed with a count [after_n_epochs]
    passed as a true value and without [after_every_epoch], [do] is called
    under [after_epoch] at the dispatches of [after_epoch] that find the
    number of epochs done equal to the count, and at no other: a dispatch
    that finds the counter below or above the count does not call it. *)
Theorem after_n_epochs_in_a_run (p : Parameters) (steps : list Step) :
  truthy (after_every_epoch p) = false ->
  truthy (after_n_epochs p) = true ->
  result (run do steps (__init__ p)) = Returned tt /\
  calls_under "after_epoch" (trace (run do steps (__init__ p))) =
  map (fun s => ("after_epoch", from_host s))
    (List.filter
       (fun s => String.eqb (callback s) "after_epoch" &&
                 counts (after_n_epochs p) (epochs_done (status (at_log s))))
       steps).
Proof.
  intros Hevery Hcount.
  destruct (run_calls_under "after_epoch" steps (__init__ p)) as [-> ->].
  split; [reflexivity|].
  induction steps as [|s rest IH]; [reflexivity|].
  cbn [flat_map List.filter]. rewrite IH.
  destruct (String.eqb (callback s) "after_epoch"); [|reflexivity].
  rewrite calls_on_after_epoch, Hevery, Hcount. cbn [andb log app].
  destruct (counts (after_n_epochs p) (epochs_done (status (at_log s))));
    reflexivity.
Qed.
End InitCalls.

(** ** More on [SimpleExtension.dispatch] *)

Section DispatchEdges.
Variable do : string -> list value -> MainLoop -> MainLoop.
Variables (callback_invoked : string) (from_main_loop : list value).

(** Without a main loop a dispatch makes no call, whether it returns or
    raises. *)
Lemma for_each_unattached_trace conditions registered :
  trace (for_each do conditions callback_invoked from_main_loop
           {| main_loop := None; _conditions := registered |}) = [].
Proof.
  induction conditions as [|c rest IH]; [reflexivity|].
  cbn [for_each].
  destruct (String.eqb_spec (callback_name c) callback_invoked) as [Heq|Hne].
  - erewrite bind_raised; [reflexivity|]. unfold check.
    apply String.eqb_eq in Heq. rewrite Heq. reflexivity.
  - erewrite bind_returned by (apply check_other_name; exact Hne).
    unfold trace in *. cbn [snd]. exact IH.
Qed.

(** The conditions that the loop reaches under the invoked name are the
    registered conditions of that name. *)
Lemma reached_of_name ml conditions :
  map fst
    (List.filter (fun cm => String.eqb (callback_name cm.1) callback_invoked)
       (reached do callback_invoked from_main_loop ml conditions)) =
  List.filter (fun c => String.eqb (callback_name c) callback_invoked)
    conditions.
Proof.
  revert ml. induction conditions as [|c rest IH]; intros ml; [reflexivity|].
  cbn [reached List.filter fst].
  destruct (String.eqb (callback_name c) callback_invoked).
  - cbn [map fst]. by rewrite IH.
  - apply IH.
Qed.

Lemma satisfied_among_named (l : list (Condition * MainLoop)) :
  (length (List.filter
             (fun cm => satisfied callback_invoked cm.1 (log cm.2)) l) <=
   length (List.filter
             (fun cm => String.eqb (callback_name cm.1) callback_invoked) l))%nat.
Proof.
  induction l as [|[c ml] l IH]; [reflexivity|].
  cbn [List.filter fst snd]. unfold satisfied at 1.
  destruct (String.eqb (callback_name c) callback_invoked); cbn [andb];
    [|exact IH].
  destruct (predicate c (log ml)); cbn [length]; lia.
Qed.


(** X10: on an extension that the host has not given a main loop, a
    dispatch under a name that some registered condition carries raises an
    [AttributeError] for [main_loop]; it does so before any predicate or
    [do] is called and leaves the extension as it was. *)
Theorem dispatch_without_main_loop_raises (self : t) :
  main_loop self = None ->
  Exists (fun c => callback_name c = callback_invoked) (_conditions self) ->
  dispatch do callback_invoked from_main_loop self =
  (Raised (AttributeError "main_loop"), self, []).
Proof.
  destruct self as [m registered]. cbn. intros -> Hex.
  unfold dispatch. cbn [_conditions]. by apply for_each_unattached.
Qed.

(** X11: in any dispatch, every call of [do] carries the invoked name,
    there are no more calls of [do] than calls of predicates, and no more
    calls of predicates than conditions registered under the invoked
    name. *)
Theorem dispatch_calls_are_bounded (self : t) :
  let tr := trace (dispatch do callback_invoked from_main_loop self) in
  Forall (fun call => call.1 = callback_invoked) (do_calls tr) /\
  (length (do_calls tr) <= length (predicate_calls tr))%nat /\
  (length (predicate_calls tr) <=
   length (List.filter
             (fun c => String.eqb (callback_name c) callback_invoked)
             (_conditions self)))%nat.
Proof.
  destruct self as [[ml|] registered]; unfold dispatch; cbn [_conditions].
  - rewrite for_each_attached. unfold trace. cbn [snd].
    rewrite do_calls_expected, predicate_calls_expected.
    rewrite !length_map. split; [|split].
    + apply List.Forall_forall. intros call Hin.
      apply List.in_map_iff in Hin as (cm & <- & _). reflexivity.
    + apply satisfied_among_named.
    + rewrite <- (reached_of_name ml registered), length_map. lia.
  - rewrite for_each_unattached_trace. cbn. split; [constructor|lia].
Qed.


(** X13: registering one more condition, under any name and with any
    predicate and arguments, leaves the calls that a dispatch makes for
    the conditions registered before as they were and in their order; the
    new condition comes last, and [do] is called for it when it is
    satisfied by the log as the earlier calls left it. *)
Theorem dispatch_after_registration
    (self : t) (ml : MainLoop) (name : string) (p : option (Log -> bool))
    (a : option (list value)) :
  main_loop self = Some ml ->
  let before := dispatch do callback_invoked from_main_loop self in
  let after := dispatch do callback_invoked from_main_loop
                 (add_condition name p a self) in
  let c := mkCondition name (default (fun _ => true) p) (default [] a) in
  exists ml',
    main_loop (final before) = Some ml' /\
    result after = Returned tt /\
    do_calls (trace after) =
    do_calls (trace before) ++
    (if satisfied callback_invoked c (log ml')
     then [(callback_invoked, from_main_loop ++ default [] a)] else []) /\
    predicate_calls (trace after) =
    predicate_calls (trace before) ++
    (if String.eqb name callback_invoked then [(c, log ml')] else []).
Proof.
  intros Hml before after c.
  destruct (dispatch_after_add_condition do self ml name p a callback_invoked
              from_main_loop Hml) as (ml' & Hbefore & Htrace).
  fold before in Hbefore, Htrace. fold after in Htrace. fold c in Htrace.
  exists ml'. split; [rewrite Hbefore; reflexivity|]. split.
  { subst after. destruct self as [m registered]. cbn in Hml. subst m.
    unfold dispatch, add_condition. cbn [_conditions main_loop].
    by rewrite for_each_attached. }
  rewrite Htrace. unfold do_calls, predicate_calls. rewrite !omap_app.
  subst c. unfold expected, satisfied.
  cbn [fst snd callback_name predicate arguments].
  destruct (String.eqb name callback_invoked); cbn [andb];
    [|split; reflexivity].
  destruct (default (fun _ => true) p (log ml')); split; reflexivity.
Qed.
End DispatchEdges.

(** ** More on [FinishAfter] *)

Lemma finish_do_any which args which' args' ml :
  FinishAfter.do which args ml = FinishAfter.do which' args' ml.
Proof. reflexivity. Qed.

Lemma finish_do_twice which args which' args' ml :
  FinishAfter.do which args (FinishAfter.do which' args' ml) =
  FinishAfter.do which' args' ml.
Proof.
  unfold FinishAfter.do. cbn [log status current_row].
  by rewrite insert_insert_eq.
Qed.

(** The main loop after the loop of a dispatch of [FinishAfter]: as it
    was when [do] was not called, and as one call of [do] leaves it when
    it was called, however often. *)
Lemma finish_fold callback_invoked from_main_loop conditions : forall ml,
  fold_left (advance FinishAfter.do callback_invoked from_main_loop)
    conditions ml =
  match do_calls
          (flat_map (expected callback_invoked from_main_loop)
             (reached FinishAfter.do callback_invoked from_main_loop ml
                conditions)) with
  | [] => ml
  | _ :: _ => FinishAfter.do callback_invoked from_main_loop ml
  end.
Proof.
  induction conditions as [|c rest IH]; intros ml; [reflexivity|].
  cbn [reached flat_map fold_left]. rewrite IH. unfold do_calls.
  rewrite omap_app. unfold advance, satisfied, expected. cbn [fst snd].
  destruct (String.eqb (callback_name c) callback_invoked); cbn [andb];
    [|reflexivity].
  destruct (predicate c (log ml)); [|reflexivity].
  cbn [omap app]. cbn.
  match goal with
  | |- match ?calls with _ => _ end = _ => destruct calls
  end; [|rewrite finish_do_twice]; apply finish_do_any.
Qed.

Lemma finish_dispatch self ml callback_invoked from_main_loop :
  main_loop self = Some ml ->
  let r := FinishAfter.dispatch callback_invoked from_main_loop self in
  r =
  (Returned tt,
   {| main_loop :=
        Some match do_calls (trace r) with
             | [] => ml
             | _ :: _ => FinishAfter.do callback_invoked from_main_loop ml
             end;
      _conditions := _conditions self |},
   trace r).
Proof.
  destruct self as [m registered]. cbn. intros ->.
  unfold FinishAfter.dispatch, dispatch. cbn [_conditions].
  rewrite for_each_attached. unfold trace. cbn [snd].
  by rewrite finish_fold.
Qed.

(** X14: a dispatch of a [FinishAfter] that belongs to a main loop,
    whatever conditions are registered, returns normally and leaves the
    main loop as it was when no condition was satisfied, and as a single
    call of [do] leaves it when one or several were.  So a row on which
    finish was not requested has it requested after the dispatch exactly
    when [do] was called. *)
Theorem finish_after_requests_when_called
    (self : t) (ml : MainLoop) (callback_invoked : string)
    (from_main_loop : list value) :
  main_loop self = Some ml ->
  let r := FinishAfter.dispatch callback_invoked from_main_loop self in
  result r = Returned tt /\
  _conditions (final r) = _conditions self /\
  exists ml',
    main_loop (final r) = Some ml' /\
    ml' = match do_calls (trace r) with
          | [] => ml
          | _ :: _ => FinishAfter.do callback_invoked from_main_loop ml
          end /\
    (current_row (log ml) !! "training_finish_requested" <>
       Some (VBool true) ->
     current_row (log ml') !! "training_finish_requested" =
       Some (VBool true) <->
     do_calls (trace r) <> []).
Proof.
  intros Hml r. pose proof (finish_dispatch self ml callback_invoked
                              from_main_loop Hml) as Hr.
  fold r in Hr. cbv zeta in Hr. rewrite Hr. cbn [result final fst snd].
  unfold result, final, trace. cbn [fst snd].
  split; [reflexivity|]. split; [reflexivity|].
  eexists. split; [reflexivity|]. split; [reflexivity|].
  intros Hbefore. destruct (do_calls r.2) as [|call calls].
  - split; [intros Hset; by destruct Hbefore|intros Hne; by destruct Hne].
  - split; [discriminate|intros _]. cbn. apply lookup_insert_eq.
Qed.

(** X15: a dispatch of a [FinishAfter] never changes the status of the
    log nor an attribute of the current row other than
    [training_finish_requested], and it never withdraws a request: a row
    on which finish was requested before has it requested after. *)
Theorem finish_after_touches_only_the_request
    (self : t) (ml : MainLoop) (callback_invoked : string)
    (from_main_loop : list value) :
  main_loop self = Some ml ->
  exists ml',
    main_loop (final (FinishAfter.dispatch callback_invoked from_main_loop
                        self)) = Some ml' /\
    status (log ml') = status (log ml) /\
    (forall name, name <> "training_finish_requested" ->
                  current_row (log ml') !! name =
                  current_row (log ml) !! name) /\
    (current_row (log ml) !! "training_finish_requested" =
       Some (VBool true) ->
     current_row (log ml') !! "training_finish_requested" =
       Some (VBool true)).
Proof.
  intros Hml. pose proof (finish_dispatch self ml callback_invoked
                            from_main_loop Hml) as Hr.
  cbv zeta in Hr. rewrite Hr. unfold final. cbn [fst snd main_loop].
  eexists. split; [reflexivity|].
  match goal with
  | |- context [match ?calls with _ => _ end] => destruct calls
  end.
  - split; [reflexivity|]. split; [reflexivity|]. intros Hset. exact Hset.
  - cbn. split; [reflexivity|]. split.
    + intros name Hname. by apply lookup_insert_ne.
    + intros _. apply lookup_insert_eq.
Qed.

(** *** Keywords *)

(** The test on the keywords fails exactly when one of them is no
    parameter. *)
Lemma keywords_refused (kwargs : gmap string value) :
  forallb (fun name => existsb (String.eqb name) keywords)
    (elements (dom kwargs)) = false <->
  exists name, is_Some (kwargs !! name) /\ ~ In name keywords.
Proof.
  split.
  - intros Hfalse.
    assert (Hex : List.Exists
                    (fun name => existsb (String.eqb name) keywords = false)
                    (elements (dom kwargs))).
    { induction (elements (dom kwargs)) as [|k l IH]; [discriminate|].
      cbn [forallb] in Hfalse.
      destruct (existsb (String.eqb k) keywords) eqn:Hk.
      - right. by apply IH.
      - left. exact Hk. }
    apply List.Exists_exists in Hex as (name & Hin & Hname).
    exists name. split.
    + apply list_elem_of_In, elem_of_elements in Hin.
      by apply elem_of_dom in Hin.
    + intros Hkey. apply Bool.not_true_iff_false in Hname. apply Hname.
      apply List.existsb_exists. exists name.
      split; [exact Hkey|apply String.eqb_refl].
  - intros (name & Hsome & Hkey). apply Bool.not_true_iff_false.
    intros Hall. apply Hkey. apply keywords_accepted in Hall.
    apply (elem_of_dom (D := gset string)) in Hsome.
    apply Hall, elem_of_list_to_set in Hsome. by apply list_elem_of_In.
Qed.

(** X16: [FinishAfter.__init__] raises a [TypeError] exactly when it is
    given a keyword that is no parameter of [SimpleExtension.__init__];
    otherwise it returns the extension that [SimpleExtension.__init__]
    builds from the keywords, each parameter taking the value passed under
    its name, or [False] for a flag and [None] for a count that was not
    passed.  Without keywords the extension has no condition. *)
Theorem finish_after_init_keywords (kwargs : gmap string value) :
  match FinishAfter.__init__ kwargs with
  | Returned ext =>
      (forall name, is_Some (kwargs !! name) -> In name keywords) /\
      exists p,
        ext = __init__ p /\
        before_first_epoch p =
          default (VBool false) (kwargs !! "before_first_epoch") /\
        after_every_epoch p =
          default (VBool false) (kwargs !! "after_every_epoch") /\
        after_every_batch p =
          default (VBool false) (kwargs !! "after_every_batch") /\
        after_training p =
          default (VBool false) (kwargs !! "after_training") /\
        after_n_epochs p = default VNone (kwargs !! "after_n_epochs") /\
        after_n_batches p = default VNone (kwargs !! "after_n_batches")
  | Raised e =>
      (exists what, e = TypeError what) /\
      exists name, is_Some (kwargs !! name) /\ ~ In name keywords
  end /\
  FinishAfter.__init__ ∅ = Returned {| main_loop := None; _conditions := [] |}.
Proof.
  split; [|reflexivity].
  unfold FinishAfter.__init__, init_with, bind_keywords.
  destruct (forallb _ (elements (dom kwargs))) eqn:Hkeys.
  - split.
    + intros name Hsome. apply keywords_accepted in Hkeys.
      apply (elem_of_dom (D := gset string)) in Hsome.
      apply Hkeys, elem_of_list_to_set in Hsome. by apply list_elem_of_In.
    + eexists. split; [reflexivity|]. cbn. repeat split.
  - split; [eexists; reflexivity|]. by apply keywords_refused.
Qed.

(** X17: a [FinishAfter] constructed with a count [after_n_epochs]
    other than 0 and nothing else requests finish at the dispatch of
    [after_epoch] that finds this number of epochs done, and only there:
    a dispatch of [after_epoch] at another number of epochs, or of another
    callback, leaves the main loop as it was. *)
Theorem finish_after_n_epochs
    (n : Z) (ml : MainLoop) (from_main_loop : list value) :
  n <> 0 ->
  exists ext,
    FinishAfter.__init__ {["after_n_epochs" := VInt n]} = Returned ext /\
    main_loop
      (final (FinishAfter.dispatch "after_epoch" from_main_loop
                (attach ml ext))) =
    Some (if epochs_done (status (log ml)) =? n
          then FinishAfter.do "after_epoch" from_main_loop ml else ml) /\
    forall callback_invoked,
      callback_invoked <> "after_epoch" ->
      FinishAfter.dispatch callback_invoked from_main_loop (attach ml ext) =
      (Returned tt, attach ml ext, []).
Proof.
  intros Hn. exists (__init__ (only_after_n_epochs (VInt n))).
  split; [reflexivity|].
  assert (Hconditions :
    _conditions (__init__ (only_after_n_epochs (VInt n))) =
    [mkCondition "after_epoch"
       (fun l => py_eq (VInt (epochs_done (status l))) (VInt n)) []]).
  { rewrite init_conditions. cbn. apply Z.eqb_neq in Hn. by rewrite Hn. }
  split.
  - unfold FinishAfter.dispatch, dispatch, attach. cbn [_conditions].
    rewrite for_each_attached, Hconditions. unfold final.
    cbn [fst snd main_loop fold_left]. unfold advance, satisfied.
    cbn. destruct (epochs_done (status (log ml)) =? n); [|reflexivity].
    by rewrite app_nil_r.
  - intros callback_invoked Hother.
    unfold FinishAfter.dispatch, dispatch. apply for_each_other_names.
    cbn [attach _conditions]. rewrite Hconditions.
    repeat constructor. cbn. congruence.
Qed.

(** ** [Printing._print_attributes] and [Printing.do] *)

Lemma append_colon_inj (a b : string) : a +:+ ":" = b +:+ ":" -> a = b.
Proof.
  revert b. induction a as [|c a IH]; intros [|d b] Heq; cbn in Heq.
  - reflexivity.
  - injection Heq as _ Heq. by destruct b.
  - injection Heq as _ Heq. by destruct a.
  - injection Heq as -> Heq. f_equal. by apply IH.
Qed.

Lemma print_attributes_prints items : forall self,
  Printing._print_attributes items self =
  (Returned tt, self,
   map Printing.attribute_line (List.filter Printing.public items)).
Proof.
  induction items as [|[attr v] items IH]; intros self; [reflexivity|].
  cbn [Printing._print_attributes List.filter].
  unfold Printing.public at 1. cbn [fst].
  destruct (String.prefix "_" attr); cbn [negb].
  - rewrite bind_ret. apply IH.
  - erewrite bind_returned by reflexivity. rewrite IH. reflexivity.
Qed.

(** X18: [_print_attributes] prints one line for each attribute whose name
    does not start with an underscore, in the order it is given them, made
    of a tabulation, the name followed by a colon, and the value; it
    prints nothing for an attribute whose name starts with an underscore,
    returns, and leaves the extension as it was. *)
Theorem print_attributes_skips_private
    (items : list (string * value)) (self : t) :
  Printing._print_attributes items self =
  (Returned tt, self,
   map Printing.attribute_line (List.filter Printing.public items)) /\
  (length (trace (Printing._print_attributes items self)) <= length items)%nat /\
  forall attr v,
    String.prefix "_" attr = true ->
    ~ In (Printing.attribute_line (attr, v))
        (trace (Printing._print_attributes items self)).
Proof.
  rewrite print_attributes_prints. unfold trace. cbn [snd].
  split; [reflexivity|]. split.
  - rewrite length_map. apply List.filter_length_le.
  - intros attr v Hprivate Hin.
    apply List.in_map_iff in Hin as ([attr' v'] & Hline & Hin).
    apply List.filter_In in Hin as [_ Hpublic].
    unfold Printing.attribute_line in Hline. cbn [fst snd] in Hline.
    injection Hline as Hname _. apply append_colon_inj in Hname. subst attr'.
    unfold Printing.public in Hpublic. cbn [fst] in Hpublic.
    by rewrite Hprivate in Hpublic.
Qed.

Section PrintingDo.
Variable status_items : Status -> list (string * value).
Variable row_items : gmap string value -> list (string * value).

(** What [do] prints for a log. *)
Lemma printing_do_prints which_callback args ml registered :
  Printing.do status_items row_items which_callback args
    {| main_loop := Some ml; _conditions := registered |} =
  (Returned tt, {| main_loop := Some ml; _conditions := registered |},
   [Printing.Print [VStr Printing.rule]] ++
   match Printing.header which_callback (log ml) with
   | Some line => [Printing.Print [VStr line]]
   | None => []
   end ++
   [Printing.Print [VStr Printing.rule];
    Printing.Print [VStr "Training status:"]] ++
   map Printing.attribute_line
     (List.filter Printing.public (status_items (status (log ml)))) ++
   [Printing.Print
      [VStr ("Log records from the iteration " +:+
             pretty (iterations_done (status (log ml))) +:+ ":")]] ++
   map Printing.attribute_line
     (List.filter Printing.public (row_items (current_row (log ml))))).
Proof.
  unfold Printing.do.
  erewrite bind_returned by reflexivity.
  erewrite bind_returned by reflexivity.
  set (self := {| main_loop := Some ml; _conditions := registered |}).
  assert (Hheader :
    (if String.eqb which_callback "before_epoch" &&
        py_eq (VInt (epochs_done (status (log ml)))) (VInt 0)
     then Printing.print [VStr "BEFORE FIRST EPOCH"]
     else if String.eqb which_callback "after_training"
     then Printing.print [VStr "TRAINING HAS BEEN FINISHED:"]
     else if String.eqb which_callback "after_epoch"
     then Printing.print [VStr "AFTER ANOTHER EPOCH"]
     else mret tt) self =
    (Returned tt, self,
     match Printing.header which_callback (log ml) with
     | Some line => [Printing.Print [VStr line]]
     | None => []
     end)).
  { unfold Printing.header.
    replace (py_eq (VInt (epochs_done (status (log ml)))) (VInt 0))
      with (epochs_done (status (log ml)) =? 0) by reflexivity.
    destruct (String.eqb which_callback "before_epoch" &&
              (epochs_done (status (log ml)) =? 0)); [reflexivity|].
    destruct (String.eqb which_callback "after_training"); [reflexivity|].
    destruct (String.eqb which_callback "after_epoch"); reflexivity. }
  erewrite bind_returned by exact Hheader.
  erewrite bind_returned by reflexivity.
  erewrite bind_returned by reflexivity.
  erewrite bind_returned by apply print_attributes_prints.
  erewrite bind_returned by reflexivity.
  rewrite print_attributes_prints. unfold result, final, trace.
  cbn [fst snd]. reflexivity.
Qed.

(** X19: [Printing.do] on an extension that belongs to a main loop
    returns, leaves the extension and the log as they were, and prints in
    this order: the line of dashes, the line that announces the callback
    when there is one, the line of dashes, the title of the status, the
    public attributes of the status, the line that names the iteration,
    and the public attributes of the current row.  On an extension without
    a main loop it raises an [AttributeError] before it prints
    anything. *)
Theorem printing_do_prints_the_log
    (which_callback : string) (args : list value) (self : t) :
  match main_loop self with
  | Some ml =>
      Printing.do status_items row_items which_callback args self =
      (Returned tt, self,
       [Printing.Print [VStr Printing.rule]] ++
       match Printing.header which_callback (log ml) with
       | Some line => [Printing.Print [VStr line]]
       | None => []
       end ++
       [Printing.Print [VStr Printing.rule];
        Printing.Print [VStr "Training status:"]] ++
       map Printing.attribute_line
         (List.filter Printing.public (status_items (status (log ml)))) ++
       [Printing.Print
          [VStr ("Log records from the iteration " +:+
                 pretty (iterations_done (status (log ml))) +:+ ":")]] ++
       map Printing.attribute_line
         (List.filter Printing.public (row_items (current_row (log ml)))))
  | None =>
      Printing.do status_items row_items which_callback args self =
      (Raised (AttributeError "main_loop"), self, [])
  end.
Proof.
  destruct self as [[ml|] registered]; cbn [main_loop].
  - apply printing_do_prints.
  - reflexivity.
Qed.
End PrintingDo.

(** *** The line that announces the callback *)

Lemma header_cases which_callback l :
  (Printing.header which_callback l = Some "BEFORE FIRST EPOCH" <->
   which_callback = "before_epoch" /\ epochs_done (status l) = 0) /\
  (Printing.header which_callback l = Some "TRAINING HAS BEEN FINISHED:" <->
   which_callback = "after_training") /\
  (Printing.header which_callback l = Some "AFTER ANOTHER EPOCH" <->
   which_callback = "after_epoch").
Proof.
  unfold Printing.header.
  destruct (String.eqb_spec which_callback "before_epoch") as [->|Hbefore];
    cbn [andb].
  - destruct (Z.eqb_spec (epochs_done (status l)) 0) as [Hzero|Hzero]; cbn;
      repeat split; intros; intuition congruence.
  - destruct (String.eqb_spec which_callback "after_training")
      as [->|Htraining];
      [repeat split; intros; intuition congruence|].
    destruct (String.eqb_spec which_callback "after_epoch") as [->|Hepoch];
      repeat split; intros; intuition congruence.
Qed.

Section PrintingHeader.
Variable status_items : Status -> list (string * value).
Variable row_items : gmap string value -> list (string * value).

(** Among the lines that [do] prints, one of the three announcements can
    only be the line that announces the callback. *)
Lemma announcement_printed which_callback args ml registered line :
  In line ["BEFORE FIRST EPOCH"; "TRAINING HAS BEEN FINISHED:";
           "AFTER ANOTHER EPOCH"] ->
  In (Printing.Print [VStr line])
    (trace (Printing.do status_items row_items which_callback args
              {| main_loop := Some ml; _conditions := registered |})) <->
  Printing.header which_callback (log ml) = Some line.
Proof.
  intros Hline. rewrite printing_do_prints. unfold trace. cbn [snd].
  rewrite !List.in_app_iff. split.
  - intros [Hin|[Hin|[Hin|[Hin|[Hin|Hin]]]]].
    + destruct Hin as [Heq|[]]. exfalso.
      cbn in Hline. destruct Hline as [<-|[<-|[<-|[]]]];
        vm_compute in Heq; discriminate.
    + destruct (Printing.header which_callback (log ml)) as [h|];
        [|destruct Hin].
      destruct Hin as [Heq|[]]. by injection Heq as ->.
    + exfalso. cbn in Hline, Hin.
      destruct Hline as [<-|[<-|[<-|[]]]];
        destruct Hin as [Heq|[Heq|[]]]; vm_compute in Heq; discriminate.
    + apply List.in_map_iff in Hin as (item & Heq & _). discriminate.
    + exfalso. cbn in Hline, Hin.
      destruct Hline as [<-|[<-|[<-|[]]]];
        destruct Hin as [Heq|[]]; discriminate.
    + apply List.in_map_iff in Hin as (item & Heq & _). discriminate.
  - intros ->. right. left. left. reflexivity.
Qed.

(** X20: when [Printing.do] runs on an extension that belongs to a main
    loop, it prints BEFORE FIRST EPOCH exactly when it is called for
    [before_epoch] and the log has no epoch done, TRAINING HAS BEEN
    FINISHED: exactly when it is called for [after_training], and AFTER
    ANOTHER EPOCH exactly when it is called for [after_epoch]; called for
    [before_epoch] after an epoch is done, or for another callback such as
    [after_batch], it prints none of them. *)
Theorem printing_do_announces_the_callback
    (which_callback : string) (args : list value) (self : t)
    (ml : MainLoop) :
  main_loop self = Some ml ->
  let printed :=
    trace (Printing.do status_items row_items which_callback args self) in
  (In (Printing.Print [VStr "BEFORE FIRST EPOCH"]) printed <->
   which_callback = "before_epoch" /\ epochs_done (status (log ml)) = 0) /\
  (In (Printing.Print [VStr "TRAINING HAS BEEN FINISHED:"]) printed <->
   which_callback = "after_training") /\
  (In (Printing.Print [VStr "AFTER ANOTHER EPOCH"]) printed <->
   which_callback = "after_epoch").
Proof.
  destruct self as [m registered]. cbn [main_loop]. intros ->. cbv zeta.
  destruct (header_cases which_callback (log ml)) as (Hfirst & Hlast & Hepoch).
  rewrite !announcement_printed by (cbn; tauto).
  tauto.
Qed.
End PrintingHeader.

(** *** The conditions of [Printing] and its announcements *)

(** What [Printing.__init__] hands on: the keywords with the three flags
    bound. *)
Lemma printing_init_parameters (kwargs : gmap string value) :
  Printing.__init__ kwargs =
  match bind_keywords kwargs with
  | Returned p =>
      Returned
        (__init__
           {| before_first_epoch :=
                default (VBool true) (kwargs !! "before_first_epoch");
              after_every_epoch :=
                default (VBool true) (kwargs !! "after_every_epoch");
              after_every_batch := after_every_batch p;
              after_training :=
                default (VBool true) (kwargs !! "after_training");
              after_n_epochs := after_n_epochs p;
              after_n_batches := after_n_batches p |})
  | Raised e => Raised e
  end.
Proof.
  unfold Printing.__init__, init_with, bind_keywords.
  rewrite printing_keywords_accepted.
  destruct (forallb _ (elements (dom kwargs))); [|reflexivity].
  rewrite !set_if_absent_lookup.
  repeat (case_decide; try done).
Qed.

(** With the conditions of [__init__] and no condition on batches, every
    call of [do] is one that [Printing.do] announces. *)
Lemma calls_are_announced p ml callback_invoked from_main_loop :
  truthy (after_every_batch p) = false ->
  truthy (after_n_batches p) = false ->
  Forall (fun call => is_Some (Printing.header call.1 (log ml)))
    (do_calls (trace (Printing.dispatch callback_invoked from_main_loop
                        (attach ml (__init__ p))))).
Proof.
  intros Hevery Hcount. unfold Printing.dispatch.
  destruct (String.eqb_spec callback_invoked "before_epoch") as [->|Hbefore].
  { rewrite calls_on_before_epoch.
    destruct (truthy (before_first_epoch p)); cbn [andb]; [|constructor].
    destruct (epochs_done (status (log ml)) =? 0) eqn:Hzero; [|constructor].
    repeat constructor. unfold Printing.header. cbn. rewrite Hzero. eauto. }
  destruct (String.eqb_spec callback_invoked "after_epoch") as [->|Hepoch].
  { rewrite calls_on_after_epoch.
    apply List.Forall_app. split.
    - destruct (truthy (after_every_epoch p)); repeat constructor; cbn; eauto.
    - match goal with
      | |- context [if ?b then _ else _] => destruct b
      end; repeat constructor; cbn; eauto. }
  destruct (String.eqb_spec callback_invoked "after_training") as [->|Htraining].
  { rewrite calls_on_after_training.
    destruct (truthy (after_training p)); repeat constructor; cbn; eauto. }
  destruct (String.eqb_spec callback_invoked "after_batch") as [->|Hbatch].
  { rewrite calls_on_after_batch, Hevery, Hcount. constructor. }
  unfold dispatch. rewrite for_each_other_names; [constructor|].
  eapply List.Forall_impl; [|apply init_condition_names].
  intros c [Hin _] Heq. rewrite Heq in Hin. cbn in Hin.
  destruct Hin as [?|[?|[?|[?|[]]]]]; congruence.
Qed.

(** X21: a [Printing] constructed without the keywords [after_every_batch]
    and [after_n_batches], for instance without any keyword, calls [do]
    only where [do] has a line to announce the callback: at
    [before_epoch] when no epoch is done, at [after_epoch] and at
    [after_training]. *)
Theorem printing_calls_are_announced
    (kwargs : gmap string value) (ext : t) (ml : MainLoop)
    (callback_invoked : string) (from_main_loop : list value) :
  Printing.__init__ kwargs = Returned ext ->
  kwargs !! "after_every_batch" = None ->
  kwargs !! "after_n_batches" = None ->
  Forall (fun call => is_Some (Printing.header call.1 (log ml)))
    (do_calls (trace (Printing.dispatch callback_invoked from_main_loop
                        (attach ml ext)))).
Proof.
  intros Hinit Hevery Hcount. rewrite printing_init_parameters in Hinit.
  unfold bind_keywords in Hinit.
  destruct (forallb _ (elements (dom kwargs))); [|discriminate].
  injection Hinit as <-. apply calls_are_announced; cbn.
  - by rewrite Hevery.
  - by rewrite Hcount.
Qed.

(** X22: [Printing.__init__] raises, a [TypeError], exactly when it is
    given a keyword that is no parameter of [SimpleExtension.__init__]:
    binding the three flags neither causes an error nor hides one. *)
Theorem printing_init_rejects_unknown_keywords (kwargs : gmap string value) :
  match Printing.__init__ kwargs with
  | Returned ext =>
      forall name, is_Some (kwargs !! name) -> In name keywords
  | Raised e =>
      (exists what, e = TypeError what) /\
      exists name, is_Some (kwargs !! name) /\ ~ In name keywords
  end.
Proof.
  rewrite printing_init_parameters. unfold bind_keywords.
  destruct (forallb _ (elements (dom kwargs))) eqn:Hkeys.
  - intros name Hsome. apply keywords_accepted in Hkeys.
    apply (elem_of_dom (D := gset string)) in Hsome.
    apply Hkeys, elem_of_list_to_set in Hsome. by apply list_elem_of_In.
  - split; [eexists; reflexivity|]. by apply keywords_refused.
Qed.

(** X23: passing to [Printing.__init__] one of [before_first_epoch],
    [after_training] and [after_every_epoch] as [True] gives the same
    extension as leaving it out. *)
Theorem printing_init_explicit_default
    (kwargs : gmap string value) (flag : string) :
  In flag ["before_first_epoch"; "after_training"; "after_every_epoch"] ->
  kwargs !! flag = None ->
  Printing.__init__ (<[flag := VBool true]> kwargs) = Printing.__init__ kwargs.
Proof.
  intros Hflag Habsent. unfold Printing.__init__. f_equal.
  apply map_eq. intros k. rewrite !set_if_absent_lookup.
  destruct (decide (k = flag)) as [->|Hne].
  - rewrite lookup_insert_eq, Habsent. cbn in Hflag.
    destruct Hflag as [<-|[<-|[<-|[]]]]; repeat (case_decide; try done).
  - rewrite lookup_insert_ne by done. reflexivity.
Qed.

(** ** Instances of the properties that have a precondition *)

Lemma init_ignores_other_callbacks_witness :
  ~ In "on_interrupt" triggers /\
  dispatch FinishAfter.do "on_interrupt" []
    (attach (mkMainLoop (Examples.log_at 0 0))
       (__init__ Examples.every_epoch)) =
  (Returned tt,
   attach (mkMainLoop (Examples.log_at 0 0)) (__init__ Examples.every_epoch),
   []).
Proof.
  assert (Hother : ~ In "on_interrupt" triggers)
    by (cbn; intros [?|[?|[?|[?|[]]]]]; discriminate).
  split; [exact Hother|].
  exact (proj2 (init_ignores_other_callbacks FinishAfter.do
                  Examples.every_epoch "on_interrupt" []
                  (mkMainLoop (Examples.log_at 0 0)) Hother)).
Defined.

Lemma after_every_epoch_in_a_run_witness :
  truthy (after_every_epoch Examples.every_epoch) = true /\
  truthy (after_n_epochs Examples.every_epoch) = false /\
  calls_under "after_epoch"
    (trace (run FinishAfter.do Examples.three_epochs
              (__init__ Examples.every_epoch))) =
  [("after_epoch", []); ("after_epoch", []); ("after_epoch", [])].
Proof.
  split; [reflexivity|]. split; [reflexivity|].
  exact (proj2 (after_every_epoch_in_a_run FinishAfter.do
                  Examples.every_epoch Examples.three_epochs
                  eq_refl eq_refl)).
Defined.

Lemma after_n_epochs_in_a_run_witness :
  truthy (after_every_epoch (only_after_n_epochs (VInt 2))) = false /\
  truthy (after_n_epochs (only_after_n_epochs (VInt 2))) = true /\
  calls_under "after_epoch"
    (trace (run FinishAfter.do Examples.three_epochs
              (__init__ (only_after_n_epochs (VInt 2))))) =
  [("after_epoch", [])].
Proof.
  split; [reflexivity|]. split; [reflexivity|].
  exact (proj2 (after_n_epochs_in_a_run FinishAfter.do
                  (only_after_n_epochs (VInt 2)) Examples.three_epochs
                  eq_refl eq_refl)).
Defined.

Lemma dispatch_without_main_loop_raises_witness :
  main_loop Examples.every_epoch_and_second = None /\
  Exists (fun c => callback_name c = "after_epoch")
    (_conditions Examples.every_epoch_and_second) /\
  dispatch FinishAfter.do "after_epoch" [] Examples.every_epoch_and_second =
  (Raised (AttributeError "main_loop"), Examples.every_epoch_and_second, []).
Proof.
  assert (Hex : Exists (fun c => callback_name c = "after_epoch")
                  (_conditions Examples.every_epoch_and_second))
    by (left; reflexivity).
  split; [reflexivity|]. split; [exact Hex|].
  exact (dispatch_without_main_loop_raises FinishAfter.do "after_epoch" []
           Examples.every_epoch_and_second eq_refl Hex).
Defined.


Lemma dispatch_after_registration_witness :
  main_loop Examples.idle = Some (mkMainLoop (Examples.log_at 0 0)) /\
  exists ml',
    main_loop (final (dispatch FinishAfter.do "after_batch" [Examples.batch]
                        Examples.idle)) = Some ml' /\
    do_calls
      (trace (dispatch FinishAfter.do "after_batch" [Examples.batch]
                (add_condition "after_batch" None (Some [VStr "more"])
                   Examples.idle))) =
    [("after_batch", [Examples.batch; VStr "more"])].
Proof.
  split; [reflexivity|].
  destruct (dispatch_after_registration FinishAfter.do "after_batch"
              [Examples.batch] Examples.idle
              (mkMainLoop (Examples.log_at 0 0)) "after_batch" None
              (Some [VStr "more"]) eq_refl)
    as (ml' & Hml' & _ & Hcalls & _).
  exists ml'. split; [exact Hml'|exact Hcalls].
Defined.

Lemma finish_after_requests_when_called_witness :
  main_loop Examples.after_second_epoch =
    Some (mkMainLoop (Examples.log_at 2 10)) /\
  exists ml',
    main_loop (final (FinishAfter.dispatch "after_epoch" []
                        Examples.after_second_epoch)) = Some ml' /\
    current_row (log ml') !! "training_finish_requested" = Some (VBool true).
Proof.
  split; [reflexivity|].
  destruct (finish_after_requests_when_called Examples.after_second_epoch
              (mkMainLoop (Examples.log_at 2 10)) "after_epoch" [] eq_refl)
    as (_ & _ & ml' & Hml' & _ & Hflag).
  exists ml'. split; [exact Hml'|]. apply Hflag; discriminate.
Defined.

Lemma finish_after_touches_only_the_request_witness :
  main_loop Examples.after_second_epoch =
    Some (mkMainLoop (Examples.log_at 2 10)) /\
  exists ml',
    main_loop (final (FinishAfter.dispatch "after_epoch" []
                        Examples.after_second_epoch)) = Some ml' /\
    status (log ml') = mkStatus 2 10.
Proof.
  split; [reflexivity|].
  destruct (finish_after_touches_only_the_request
              Examples.after_second_epoch
              (mkMainLoop (Examples.log_at 2 10)) "after_epoch" [] eq_refl)
    as (ml' & Hml' & Hstatus & _).
  exists ml'. split; [exact Hml'|exact Hstatus].
Defined.

Lemma finish_after_n_epochs_witness :
  2 <> 0 /\
  exists ext,
    FinishAfter.__init__ {["after_n_epochs" := VInt 2]} = Returned ext /\
    main_loop
      (final (FinishAfter.dispatch "after_epoch" []
                (attach (mkMainLoop (Examples.log_at 2 10)) ext))) =
    Some (FinishAfter.do "after_epoch" [] (mkMainLoop (Examples.log_at 2 10))).
Proof.
  split; [discriminate|].
  destruct (finish_after_n_epochs 2 (mkMainLoop (Examples.log_at 2 10)) []
              ltac:(discriminate)) as (ext & Hinit & Hfinal & _).
  exists ext. split; [exact Hinit|exact Hfinal].
Defined.

Lemma printing_do_announces_the_callback_witness :
  main_loop Examples.idle = Some (mkMainLoop (Examples.log_at 0 0)) /\
  (In (Printing.Print [VStr "BEFORE FIRST EPOCH"])
     (trace (Printing.do Examples.status_items Examples.row_items
               "before_epoch" [] Examples.idle)) <->
   "before_epoch" = "before_epoch" /\
   epochs_done (status (log (mkMainLoop (Examples.log_at 0 0)))) = 0).
Proof.
  split; [reflexivity|].
  exact (proj1 (printing_do_announces_the_callback Examples.status_items
                  Examples.row_items "before_epoch" [] Examples.idle
                  (mkMainLoop (Examples.log_at 0 0)) eq_refl)).
Defined.

Lemma printing_calls_are_announced_witness :
  Printing.__init__ ∅ = Returned (__init__ (mkParameters (VBool true)
    (VBool true) (VBool false) (VBool true) VNone VNone)) /\
  (∅ : gmap string value) !! "after_every_batch" = None /\
  (∅ : gmap string value) !! "after_n_batches" = None /\
  Forall (fun call =>
            is_Some (Printing.header call.1 (Examples.log_at 1 5)))
    (do_calls
       (trace (Printing.dispatch "after_epoch" []
                 (attach (mkMainLoop (Examples.log_at 1 5))
                    (__init__ (mkParameters (VBool true) (VBool true)
                                 (VBool false) (VBool true) VNone VNone)))))).
Proof.
  split; [reflexivity|]. split; [reflexivity|]. split; [reflexivity|].
  exact (printing_calls_are_announced ∅ _
           (mkMainLoop (Examples.log_at 1 5)) "after_epoch" []
           eq_refl eq_refl eq_refl).
Defined.

Lemma printing_init_explicit_default_witness :
  In "after_training"
    ["before_first_epoch"; "after_training"; "after_every_epoch"] /\
  (∅ : gmap string value) !! "after_training" = None /\
  Printing.__init__ (<["after_training" := VBool true]> ∅) =
  Printing.__init__ ∅.
Proof.
  assert (Hflag : In "after_training"
                    ["before_first_epoch"; "after_training";
                     "after_every_epoch"])
    by (right; left; reflexivity).
  split; [exact Hflag|]. split; [reflexivity|].
  exact (printing_init_explicit_default ∅ "after_training" Hflag eq_refl).
Defined.
